(** * Asset generation scripts: submit, poll, download

    A shallow embedding of the Python scripts that drive the remote
    prediction service:

    - the class based generators ([PremiumTradingAssetsGenerator],
      [PremiumIconGenerator], [StunningIconGenerator]) with their methods
      [_make_request], [_poll_prediction] and [_download_assets];
    - the one-shot scripts [create_ai_trading_icons.py] and
      [create_professional_fintech_icon.py] (a [while True] poll loop);
    - the one-shot script [create_fintech_mobile_icon.py] (a 60 attempt
      poll loop under one [except Exception]).

    The scripts talk to the network, read the clock, sleep, print and write
    files.  Here a program is a function of a [world] (what the network
    answers to each request, what the clock shows) and of the history of
    the effects performed before it; it yields an outcome together with the
    effects it performed itself. *)

From Stdlib Require Import List String Ascii ZArith QArith Lia Bool Arith.
From Stdlib Require Import DecimalString.
Import ListNotations.

Close Scope Q_scope.
Local Open Scope string_scope.
Local Open Scope list_scope.

(** ** JSON values, as [response.json()] hands them to the scripts *)

Set Warnings "-register-all".

Inductive json : Type :=
| JNull
| JBool (b : bool)
| JNum (n : Z)
| JStr (s : string)
| JArr (items : list json)
| JObj (fields : list (string * json)).

(** Python exceptions the scripts can meet.  [ConnectionError] and
    [HTTPError] are the subclasses of [requests.exceptions.RequestException];
    an [HTTPError] keeps a reference to the response that caused it. *)

(** A response of the service.  [response.json()] is taken to succeed: a
    body that is not JSON is outside the model. *)
Record response : Type := mkResponse {
  status_code : Z;
  reason : string;
  content : string;          (* the raw body, [response.content] *)
  json_body : json           (* the body as parsed by [response.json()] *)
}.

Inductive exn : Type :=
| ConnectionError
| HTTPError (r : response)
| KeyError
| IndexError
| TypeError
| AttributeError.

(** [isinstance(e, requests.exceptions.RequestException)] *)
Definition is_RequestException (e : exn) : bool :=
  match e with
  | ConnectionError | HTTPError _ => true
  | _ => false
  end.

(** [isinstance(e, Exception)] *)
Definition is_Exception (e : exn) : bool := true.

(** What [print(f"... {e}")] shows of an exception: for an [HTTPError] the
    text built by [raise_for_status] from the status code and the reason
    phrase, and the bare exception text otherwise. *)
Inductive exn_text : Type :=
| HttpErrorText (code : Z) (phrase : string)
| ConnectionErrorText
| KeyErrorText
| IndexErrorText
| TypeErrorText
| AttributeErrorText.

Definition str_exn (e : exn) : exn_text :=
  match e with
  | ConnectionError => ConnectionErrorText
  | HTTPError r => HttpErrorText (status_code r) (reason r)
  | KeyError => KeyErrorText
  | IndexError => IndexErrorText
  | TypeError => TypeErrorText
  | AttributeError => AttributeErrorText
  end.

(** ** Results of pure Python expressions *)

Inductive result (A : Type) : Type :=
| Ok (a : A)
| Err (e : exn).
Arguments Ok {A} a.
Arguments Err {A} e.

(** A dict with string keys, in insertion order. *)
Fixpoint assoc {A} (k : string) (fields : list (string * A)) : option A :=
  match fields with
  | [] => None
  | (k', v) :: rest => if String.eqb k k' then Some v else assoc k rest
  end.

(** [d.get(key, default)] *)
Definition dict_get (d : json) (key : string) (default : json) : result json :=
  match d with
  | JObj fields =>
      match assoc key fields with
      | Some v => Ok v
      | None => Ok default
      end
  | _ => Err AttributeError
  end.

(** [d[key]] with a string key *)
Definition getitem_key (d : json) (key : string) : result json :=
  match d with
  | JObj fields =>
      match assoc key fields with
      | Some v => Ok v
      | None => Err KeyError
      end
  | _ => Err TypeError
  end.

(** [x[0]] *)
Definition getitem_0 (x : json) : result json :=
  match x with
  | JArr (v :: _) => Ok v
  | JArr [] => Err IndexError
  | JStr (String c _) => Ok (JStr (String c EmptyString))
  | JStr EmptyString => Err IndexError
  | JObj _ => Err KeyError
  | _ => Err TypeError
  end.

(** Truth value of a JSON value in an [if] *)
Definition truthy (x : json) : bool :=
  match x with
  | JNull => false
  | JBool b => b
  | JNum n => negb (Z.eqb n 0)
  | JStr s => negb (String.eqb s "")
  | JArr items => match items with [] => false | _ => true end
  | JObj fields => match fields with [] => false | _ => true end
  end.

(** [x == 'text'] for a string literal *)
Definition eq_str (x : json) (text : string) : bool :=
  match x with
  | JStr s => String.eqb s text
  | _ => false
  end.

(** [x in [text1, text2, ...]] *)
Definition in_strs (x : json) (texts : list string) : bool :=
  existsb (eq_str x) texts.

Fixpoint chars (s : string) : list json :=
  match s with
  | EmptyString => []
  | String c rest => JStr (String c EmptyString) :: chars rest
  end.

(** The values a [for] loop draws from [x]: the elements of a list, the
    characters of a string, the keys of a dict; other values are not
    iterable. *)
Definition iterate (x : json) : result (list json) :=
  match x with
  | JArr items => Ok items
  | JStr s => Ok (chars s)
  | JObj fields => Ok (map (fun kv => JStr (fst kv)) fields)
  | _ => Err TypeError
  end.

(** ** Effects *)

Record payload : Type := mkPayload {
  version : string;
  prompt : string;
  width : Z;
  height : Z;
  num_outputs : Z;
  output_format : string;
  guidance_scale : Q;
  num_inference_steps : Z
}.

(** The three requests the scripts make.  The URL of a status query is
    [f"{base_url}/{prediction_id}"]; it is kept as the id it is built from. *)
Inductive request : Type :=
| PostPrediction (p : payload)        (* requests.post(base_url, json=payload) *)
| GetPrediction (prediction_id : json) (* requests.get(f"{base_url}/{id}") *)
| GetUrl (url : json).                (* requests.get(url) *)

(** Console messages; each constructor is one [print] of the source, with
    the values it interpolates.  Fixed texts are given without their
    pictographs. *)
Inductive message : Type :=
| MsgStarted (filename_prefix : string)
| MsgPredictionId (prediction_id : json)
| MsgApiRequestFailed (e : exn_text)
| MsgNoOutputUrls (filename_prefix : string)
| MsgGenerationFailed (filename_prefix : string) (error : json)
| MsgStatus (filename_prefix : string) (status : json) (attempt max_attempts : nat)
| MsgProcessing (filename_prefix : string) (attempt max_attempts : nat)
| MsgUnknownStatus (filename_prefix : string) (status : json)
| MsgPollingError (filename_prefix : string) (e : exn_text)
| MsgTimeout (filename_prefix : string)
| MsgDownloaded (filepath : string)
| MsgDownloadFailed (url : json) (e : exn_text)
| MsgSaved (filename : string)
| MsgErrorCheckingStatus (code : Z)
| MsgError (e : exn_text)
| MsgErrorGenerating (concept_name : string) (e : exn_text)
| MsgGenerating (concept : string)
| MsgPrompt (prompt_ : string)
| MsgCount (n : nat)
| MsgItem (icon : string)
| MsgText (text : string).

Inductive event : Type :=
| Request (r : request)
| Sleep (seconds : nat)
| Print (m : message)
| MakeDirs (path : string)
| WriteFile (path : string) (data : string).

Definition trace := list event.

(** What comes back from the network: the request raises (connection
    refused, timeout, ...) or a response arrives. *)
Inductive reply : Type :=
| NoResponse
| Responded (r : response).

(** [datetime.now()], already split in the two pieces the scripts format. *)
Record datetime : Type := mkDatetime {
  ymd : string;   (* strftime("%Y%m%d") *)
  hms : string    (* strftime("%H%M%S") *)
}.

(** The environment of a run.  Both components see the whole history, so a
    service may answer the third status query differently from the first. *)
Record world : Type := mkWorld {
  network : trace -> request -> reply;
  clock : trace -> datetime
}.

(** ** The monad of the scripts

    A computation reads the world and the history (the effects performed
    before it started) and yields its outcome and the effects it performed
    itself, oldest first. *)

Inductive outcome (A : Type) : Type :=
| Returns (a : A)
| Raises (e : exn)
| Diverges.          (* the fuel of a [while True] loop ran out *)
Arguments Returns {A} a.
Arguments Raises {A} e.
Arguments Diverges {A}.

Definition M (A : Type) : Type := world -> trace -> outcome A * trace.

Definition ret {A} (a : A) : M A := fun _ _ => (Returns a, []).

Definition bind {A B} (m : M A) (k : A -> M B) : M B :=
  fun w h =>
    match m w h with
    | (Returns a, d1) =>
        let '(o, d2) := k a w (h ++ d1) in (o, d1 ++ d2)
    | (Raises e, d1) => (Raises e, d1)
    | (Diverges, d1) => (Diverges, d1)
    end.

Declare Scope py_scope.
Delimit Scope py_scope with py.
Notation "x <- m ;; k" := (bind m (fun x => k))
  (at level 100, m at next level, right associativity) : py_scope.
Notation "m ;; k" := (bind m (fun _ => k))
  (at level 100, right associativity) : py_scope.
Local Open Scope py_scope.

Definition raise {A} (e : exn) : M A := fun _ _ => (Raises e, []).

Definition diverge {A} : M A := fun _ _ => (Diverges, []).

Definition lift {A} (r : result A) : M A :=
  match r with
  | Ok a => ret a
  | Err e => raise e
  end.

Definition emit (e : event) : M unit := fun _ _ => (Returns tt, [e]).

Definition print (m : message) : M unit := emit (Print m).
Definition sleep (seconds : nat) : M unit := emit (Sleep seconds).
Definition makedirs (path : string) : M unit := emit (MakeDirs path).
Definition write_file (path data : string) : M unit := emit (WriteFile path data).

Definition now : M datetime := fun w h => (Returns (clock w h), []).

(** [requests.get] / [requests.post]: the network answers from the history
    before the request; the request is recorded either way. *)
Definition send (r : request) : M response :=
  fun w h =>
    match network w h r with
    | NoResponse => (Raises ConnectionError, [Request r])
    | Responded resp => (Returns resp, [Request r])
    end.

(** The status codes for which [raise_for_status] raises. *)
Definition is_http_error (code : Z) : bool :=
  (400 <=? code)%Z && (code <? 600)%Z.

(** [response.raise_for_status()] *)
Definition raise_for_status (r : response) : M unit :=
  if is_http_error (status_code r)
  then raise (HTTPError r)
  else ret tt.

(** [try: body except <class> as e: handler(e)] *)
Definition try_except {A} (body : M A) (catches : exn -> bool) (handler : exn -> M A) : M A :=
  fun w h =>
    match body w h with
    | (Raises e, d1) =>
        if catches e
        then let '(o, d2) := handler e w (h ++ d1) in (o, d1 ++ d2)
        else (Raises e, d1)
    | other => other
    end.

(** What a loop body tells its loop. *)
Inductive control (A : Type) : Type :=
| Continue
| Break
| Return (a : A).
Arguments Continue {A}.
Arguments Break {A}.
Arguments Return {A} a.

(** ** The class based generators

    [generate_premium_trading_assets.py], [generate_premium_app_icon.py] and
    [generate_stunning_trading_icon.py] each define one class with the same
    three private methods.  The methods differ in the output directory, in
    the name of the downloaded file and in what they print; [generator]
    selects the class. *)

Inductive generator : Type :=
| PremiumTradingAssetsGenerator
| PremiumIconGenerator
| StunningIconGenerator.

Definition output_dir (self : generator) : string :=
  match self with
  | PremiumTradingAssetsGenerator => "generated_trading_assets"
  | PremiumIconGenerator => "generated_icons"
  | StunningIconGenerator => "stunning_icons"
  end.

Definition str_nat (n : nat) : string := NilEmpty.string_of_uint (Nat.to_uint n).

(** [strftime("%Y%m%d_%H%M%S")] *)
Definition timestamp_of (d : datetime) : string := ymd d ++ "_" ++ hms d.

(** [os.path.join(directory, filename)] *)
Definition path_join (directory filename : string) : string :=
  directory ++ "/" ++ filename.

(** The [filename] of [_download_assets]: only the trading assets generator
    numbers the files of one job. *)
Definition asset_filename (self : generator) (filename_prefix timestamp : string) (i : nat) : string :=
  match self with
  | PremiumTradingAssetsGenerator =>
      filename_prefix ++ "_" ++ timestamp ++ "_" ++ str_nat (i + 1) ++ ".png"
  | _ => filename_prefix ++ "_" ++ timestamp ++ ".png"
  end.

(** One turn of [for i, url in enumerate(urls)] in [_download_assets]. *)
Definition download_one (self : generator) (filename_prefix : string)
    (i : nat) (url : json) (downloaded_files : list string) : M (list string) :=
  try_except
    (response <- send (GetUrl url) ;;
     raise_for_status response ;;
     d <- now ;;
     let timestamp := timestamp_of d in
     let filename := asset_filename self filename_prefix timestamp i in
     let filepath := path_join (output_dir self) filename in
     write_file filepath (content response) ;;
     print (MsgDownloaded filepath) ;;
     ret (downloaded_files ++ [filepath]))
    is_RequestException
    (fun e => print (MsgDownloadFailed url (str_exn e)) ;; ret downloaded_files).

Fixpoint download_loop (self : generator) (filename_prefix : string)
    (items : list json) (i : nat) (downloaded_files : list string) : M (list string) :=
  match items with
  | [] => ret downloaded_files
  | url :: rest =>
      files <- download_one self filename_prefix i url downloaded_files ;;
      download_loop self filename_prefix rest (S i) files
  end.

Definition _download_assets (self : generator) (urls : json) (filename_prefix : string)
    : M (list string) :=
  items <- lift (iterate urls) ;;
  download_loop self filename_prefix items 0 [].

(** The progress line of the [starting]/[processing] branch. *)
Definition print_progress (self : generator) (filename_prefix : string)
    (status : json) (attempt max_attempts : nat) : M unit :=
  match self with
  | StunningIconGenerator =>
      if Nat.eqb (attempt mod 5) 0
      then print (MsgProcessing filename_prefix (attempt + 1) max_attempts)
      else ret tt
  | _ => print (MsgStatus filename_prefix status (attempt + 1) max_attempts)
  end.

(** The body of [for attempt in range(max_attempts)] in [_poll_prediction].
    The method returns [None] or the list of downloaded files. *)
Definition poll_attempt (self : generator) (prediction_id : json) (filename_prefix : string)
    (max_attempts attempt : nat) : M (control (option (list string))) :=
  try_except
    (response <- send (GetPrediction prediction_id) ;;
     raise_for_status response ;;
     let data := json_body response in
     status <- lift (dict_get data "status" JNull) ;;
     if eq_str status "succeeded" then
       output_urls <- lift (dict_get data "output" (JArr [])) ;;
       if truthy output_urls then
         files <- _download_assets self output_urls filename_prefix ;;
         ret (Return (Some files))
       else
         print (MsgNoOutputUrls filename_prefix) ;;
         ret (Return None)
     else if eq_str status "failed" then
       error <- lift (dict_get data "error" (JStr "Unknown error")) ;;
       print (MsgGenerationFailed filename_prefix error) ;;
       ret (Return None)
     else if in_strs status ["starting"; "processing"] then
       print_progress self filename_prefix status attempt max_attempts ;;
       sleep 2 ;;
       ret Continue
     else
       print (MsgUnknownStatus filename_prefix status) ;;
       sleep 2 ;;
       ret Continue)
    is_RequestException
    (fun e =>
       print (MsgPollingError filename_prefix (str_exn e)) ;;
       sleep 2 ;;
       ret Continue).

(** [for attempt in range(max_attempts)]: [remaining] turns are left,
    the next one has index [attempt]. *)
Fixpoint poll_loop (self : generator) (prediction_id : json) (filename_prefix : string)
    (max_attempts attempt remaining : nat) : M (option (list string)) :=
  match remaining with
  | O =>
      print (MsgTimeout filename_prefix) ;;
      ret None
  | S remaining' =>
      c <- poll_attempt self prediction_id filename_prefix max_attempts attempt ;;
      match c with
      | Return v => ret v
      | _ => poll_loop self prediction_id filename_prefix max_attempts (S attempt) remaining'
      end
  end.

Definition _poll_prediction (self : generator) (prediction_id : json) (filename_prefix : string)
    (max_attempts : nat) : M (option (list string)) :=
  poll_loop self prediction_id filename_prefix max_attempts 0 max_attempts.

(** The default of the keyword argument [max_attempts]. *)
Definition default_max_attempts : nat := 60.

(** The lines of [_make_request] between the POST and the poll. *)
Definition print_started (self : generator) (filename_prefix : string) (prediction_id : json)
    : M unit :=
  match self with
  | StunningIconGenerator => print (MsgPredictionId prediction_id)
  | _ =>
      print (MsgStarted filename_prefix) ;;
      print (MsgPredictionId prediction_id)
  end.

(** The submission of [_make_request]: the POST, [raise_for_status] and
    the extraction of the prediction id. *)
Definition submit (payload_ : payload) : M json :=
  response <- send (PostPrediction payload_) ;;
  raise_for_status response ;;
  let prediction_data := json_body response in
  lift (getitem_key prediction_data "id").

Definition _make_request (self : generator) (payload_ : payload) (filename_prefix : string)
    : M (option (list string)) :=
  try_except
    (prediction_id <- submit payload_ ;;
     print_started self filename_prefix prediction_id ;;
     _poll_prediction self prediction_id filename_prefix default_max_attempts)
    is_RequestException
    (fun e =>
       print (MsgApiRequestFailed (str_exn e)) ;;
       ret None).

(** ** The one-shot scripts with a [while True] poll loop

    [create_ai_trading_icons.py] ([generate_ai_icon]) and
    [create_professional_fintech_icon.py] ([generate_professional_icon]) are
    the same function up to the directory the icon is saved in. *)

Inductive script : Type :=
| AiTradingIcons
| ProfessionalFintechIcons.

Definition icon_dir (s : script) : string :=
  match s with
  | AiTradingIcons => "ai_trading_icons"
  | ProfessionalFintechIcons => "professional_fintech_icons"
  end.

Definition flux_schnell : string :=
  "ac732df83cea7fff18b8472768c88ad041fa750ff7682a21affe81863cbe77e4".

Definition make_payload (prompt_ : string) (width_ height_ : Z) : payload :=
  {| version := flux_schnell;
     prompt := prompt_;
     width := width_;
     height := height_;
     num_outputs := 1;
     output_format := "png";
     guidance_scale := (7 # 2)%Q;
     num_inference_steps := 4 |}.

(** [while True: body]; the loop is left by [break] ([None]) or by a
    [return] of the enclosing function.  [fuel] bounds the number of turns
    the model follows. *)
Fixpoint while_true {A} (fuel : nat) (body : M (control A)) : M (option A) :=
  match fuel with
  | O => diverge
  | S fuel' =>
      c <- body ;;
      match c with
      | Continue => while_true fuel' body
      | Break => ret None
      | Return a => ret (Some a)
      end
  end.

(** The body of the [while True] loop of [generate_ai_icon]. *)
Definition ai_poll_turn (s : script) (concept_name : string) (prediction_id : json)
    : M (control string) :=
  result <- send (GetPrediction prediction_id) ;;
  if (status_code result =? 200)%Z then
    let data := json_body result in
    status <- lift (getitem_key data "status") ;;
    if eq_str status "succeeded" then
      output <- lift (getitem_key data "output") ;;
      image_url <- lift (getitem_0 output) ;;
      img_response <- send (GetUrl image_url) ;;
      if (status_code img_response =? 200)%Z then
        d <- now ;;
        let timestamp := timestamp_of d in
        let filename := (icon_dir s ++ "/" ++ concept_name ++ "_" ++ timestamp ++ ".png")%string in
        makedirs (icon_dir s) ;;
        write_file filename (content img_response) ;;
        print (MsgSaved filename) ;;
        ret (Return filename)
      else ret Break
    else
      status' <- lift (getitem_key data "status") ;;
      if eq_str status' "failed" then
        error <- lift (dict_get data "error" (JStr "Unknown error")) ;;
        print (MsgGenerationFailed concept_name error) ;;
        ret Break
      else
        sleep 2 ;;
        ret Continue
  else
    print (MsgErrorCheckingStatus (status_code result)) ;;
    ret Break.

(** [generate_ai_icon] / [generate_professional_icon].  The [try] block is
    left by the [return filename] of the loop ([Some filename]), by a
    [break], by a status other than 201 or through the handler; in the last
    three cases the function falls through to its final [return None]. *)
Definition generate_ai_icon (s : script) (fuel : nat) (concept_name prompt_ : string)
    : M (option string) :=
  let payload_ := make_payload prompt_ 1024 1024 in
  r <- try_except
         (response <- send (PostPrediction payload_) ;;
          if (status_code response =? 201)%Z then
            prediction_id <- lift (getitem_key (json_body response) "id") ;;
            print (MsgStarted concept_name) ;;
            while_true fuel (ai_poll_turn s concept_name prediction_id)
          else ret None)
         is_Exception
         (fun e => print (MsgErrorGenerating concept_name (str_exn e)) ;; ret None) ;;
  match r with
  | Some filename => ret (Some filename)
  | None => ret None
  end.

(** ** [create_fintech_mobile_icon.py] *)

(** The body of [for attempt in range(60)] of [generate_fintech_icon]. *)
Definition fintech_poll_turn (concept_name : string) (prediction_id : json)
    : M (control (option string)) :=
  response <- send (GetPrediction prediction_id) ;;
  let data := json_body response in
  status <- lift (getitem_key data "status") ;;
  if eq_str status "succeeded" then
    output <- lift (getitem_key data "output") ;;
    url <- lift (getitem_0 output) ;;
    response' <- send (GetUrl url) ;;
    makedirs "fintech_icons" ;;
    d <- now ;;
    let filename := ("fintech_icons/" ++ concept_name ++ "_" ++ hms d ++ ".png")%string in
    write_file filename (content response') ;;
    print (MsgSaved filename) ;;
    ret (Return (Some filename))
  else
    status' <- lift (getitem_key data "status") ;;
    if eq_str status' "failed" then
      error <- lift (dict_get data "error" (JStr "Unknown error")) ;;
      print (MsgGenerationFailed concept_name error) ;;
      ret (Return None)
    else
      sleep 2 ;;
      ret Continue.

Fixpoint fintech_poll_loop (concept_name : string) (prediction_id : json) (remaining : nat)
    : M (option string) :=
  match remaining with
  | O =>
      print (MsgTimeout concept_name) ;;
      ret None
  | S remaining' =>
      c <- fintech_poll_turn concept_name prediction_id ;;
      match c with
      | Return v => ret v
      | _ => fintech_poll_loop concept_name prediction_id remaining'
      end
  end.

(** [generate_fintech_icon]: submission and poll under one
    [try ... except Exception]. *)
Definition generate_fintech_icon (concept_name prompt_ : string) : M (option string) :=
  let payload_ := make_payload prompt_ 512 512 in
  try_except
    (response <- send (PostPrediction payload_) ;;
     raise_for_status response ;;
     prediction_id <- lift (getitem_key (json_body response) "id") ;;
     print (MsgStarted concept_name) ;;
     print (MsgPredictionId prediction_id) ;;
     fintech_poll_loop concept_name prediction_id 60)
    is_Exception
    (fun e => print (MsgError (str_exn e)) ;; ret None).

(** ** Prompt tables *)

(** The dict [prompts] of [generate_trading_button]. *)
Definition button_prompts (color_scheme : string) : list (string * string) :=
  [
   ("glassmorphic",
    ("Ultra-modern glassmorphic trading button with " ++ color_scheme ++ " accent, transparent background, subtle glow effect, professional fintech design, 3D depth, clean typography 'BUY', high-end mobile app UI, 4K resolution")%string);
   ("neomorphic",
    ("Sleek neomorphic trading button with " ++ color_scheme ++ " gradient, soft shadows, embossed effect, premium fintech aesthetic, 'SELL' text, mobile-first design, ultra-clean")%string);
   ("gradient",
    ("Premium gradient trading button with " ++ color_scheme ++ " to gold transition, metallic finish, luxury fintech design, 'TRADE' text, professional mobile app interface")%string);
   ("holographic",
    ("Futuristic holographic trading button with " ++ color_scheme ++ " iridescent effect, digital glow, sci-fi fintech design, 'INVEST' text, next-gen mobile UI")%string)
  ].

(** The dict [prompts] of [generate_trading_icon]. *)
Definition icon_prompts (style : string) : list (string * string) :=
  [
   ("trending_up",
    (style ++ " trending up arrow icon, financial growth symbol, " ++ style ++ " design, clean vector style, professional fintech branding, transparent background, high contrast")%string);
   ("trending_down",
    (style ++ " trending down arrow icon, market decline symbol, " ++ style ++ " design, clean vector style, professional fintech branding, transparent background, high contrast")%string);
   ("chart",
    (style ++ " financial chart icon, stock market graph, " ++ style ++ " design, clean vector style, professional fintech branding, transparent background, analytical symbol")%string);
   ("portfolio",
    (style ++ " investment portfolio icon, diversified assets symbol, " ++ style ++ " design, clean vector style, professional fintech branding, transparent background")%string);
   ("analytics",
    (style ++ " financial analytics icon, data visualization symbol, " ++ style ++ " design, clean vector style, professional fintech branding, transparent background")%string)
  ].

(** The dict [prompts] of [generate_trading_background]. *)
Definition background_prompts (mood complexity : string) : list (string * string) :=
  [
   ("bullish",
    ("Premium " ++ complexity ++ " trading app background, " ++ mood ++ " market theme, green ascending charts, financial growth patterns, professional fintech design, dark theme, mobile optimized")%string);
   ("bearish",
    ("Premium " ++ complexity ++ " trading app background, " ++ mood ++ " market theme, red descending charts, market decline patterns, professional fintech design, dark theme, mobile optimized")%string);
   ("neutral",
    ("Premium " ++ complexity ++ " trading app background, " ++ mood ++ " market theme, balanced chart patterns, steady market visualization, professional fintech design, dark theme, mobile optimized")%string);
   ("luxury",
    ("Premium " ++ complexity ++ " trading app background, " ++ mood ++ " market theme, gold and black color scheme, luxury fintech design, sophisticated patterns, mobile optimized")%string)
  ].

(** The dict [prompts] of [generate_ai_analytics_icon]. *)
Definition analytics_prompts : list (string * list string) :=
  [
   ("modern",
    [ "3D isometric trading chart icon, ascending candlestick pattern, vibrant teal gradient (#00D4AA), glossy finish, professional fintech style, floating elements, clean white background, mobile app icon, ultra detailed, 4K quality";
      "Minimalist bull market symbol, elegant upward arrow with data points, teal green (#00D4AA) to emerald gradient, sleek modern design, premium fintech branding, white background, mobile optimized icon";
      "Geometric crystal-style analytics cube, faceted surfaces, teal (#00D4AA) gradient lighting, floating financial data streams, modern luxury design, white background, professional mobile app icon" ]);
   ("luxury",
    [ "Premium golden bull silhouette with teal accents (#00D4AA), sophisticated gradient, elegant financial symbol, luxury trading app icon, minimal design, white background, high-end fintech branding";
      "Luxury diamond-cut chart icon, multifaceted crystalline structure, gold and teal (#00D4AA) gradient, premium reflection effects, sophisticated trading symbol, white background, mobile app icon";
      "Elegant rising arrow with golden particles, teal (#00D4AA) energy trail, luxury fintech design, premium gradient effects, sophisticated trading icon, clean white background" ]);
   ("tech",
    [ "Futuristic holographic trading interface, neon teal (#00D4AA) glow, floating data visualizations, sci-fi financial dashboard, high-tech design, dark to light gradient background, mobile app icon";
      "Digital DNA helix made of financial data, glowing teal (#00D4AA) elements, futuristic trading symbol, tech-forward design, gradient background, professional mobile icon";
      "Cyber grid with rising profit arrow, electric teal (#00D4AA) energy, digital matrix style, futuristic trading icon, high-tech gradient background, mobile optimized" ])
  ].

(** [base_prompt] and the dict [variations] of [main] in [create_ai_trading_icons.py]. *)
Definition base_prompt : string :=
  "A high-tech, futuristic app icon for an AI-powered financial trading assistant. The icon should feature a sleek abstract symbol combining a stylized 'A' and 'I' with subtle circuitry patterns and glowing accents. It should convey intelligence, precision, and cutting-edge analysis. The design should have a clean, 3D glass-like aesthetic with a dark background and a vibrant neon glow. Emphasize a tech-savvy and trustworthy look suitable for a modern financial mobile app.".

Definition variations : list (string * string) :=
  [
   ("green_blue_glow",
    (base_prompt ++ " Focus on green-blue accents with electric blue circuitry patterns.")%string);
   ("cyan_teal_variant",
    (base_prompt ++ " Use cyan and teal glowing accents with holographic effects and digital grid patterns.")%string);
   ("electric_blue",
    (base_prompt ++ " Emphasize electric blue and white glowing effects with futuristic hexagonal patterns.")%string);
   ("neon_green",
    (base_prompt ++ " Feature bright neon green accents with matrix-style digital rain effects and sharp geometric lines.")%string);
   ("purple_blue",
    (base_prompt ++ " Use purple-blue gradient glows with neural network patterns and crystalline geometric shapes.")%string)
  ].

(** The dict [icon_concepts] of [main] in [create_professional_fintech_icon.py]. *)
Definition icon_concepts : list (string * string) :=
  [
   ("minimalist_growth",
    "Mobile app icon for fintech trading application: clean minimalist upward arrow, single teal gradient (#00D4AA to #4ECDC4), white background, iOS app store compliant, recognizable at 64px, flat design style, professional");
   ("geometric_chart",
    "Professional fintech mobile app icon: geometric rising bar chart silhouette, bold teal (#00D4AA), minimal clean design, square format with rounded corners, app store ready, financial analytics symbol");
   ("modern_bull",
    "Fintech trading app icon: stylized modern bull head silhouette, teal green (#00D4AA), ultra-minimalist design, iOS/Android compliant, recognizable at small sizes, professional financial branding");
   ("diamond_analytics",
    "Mobile app icon for AI trading platform: clean diamond shape with upward trend line, teal gradient (#00D4AA), minimalist flat design, white background, premium fintech aesthetic, app store optimized");
   ("circle_trend",
    "Professional trading app icon: circular badge with ascending line graph, bold teal (#00D4AA), clean geometric design, financial symbol, mobile optimized, recognizable icon for app stores");
   ("abstract_growth",
    "Modern fintech mobile app icon: abstract upward triangle with data points, teal (#00D4AA) and white, minimalist design, iOS guidelines compliant, trading application symbol, clean and professional")
  ].

(** The dict [concepts] of [main] in [create_fintech_mobile_icon.py]. *)
Definition concepts : list (string * string) :=
  [
   ("trading_bull_icon",
    "Mobile app icon for trading application: stylized bull head silhouette, teal green (#00D4AA), minimalist design, recognizable at 64px size, iOS/Android app store ready, clean white background, professional fintech branding");
   ("upward_chart_icon",
    "Fintech mobile app icon: simple upward trending line chart, bold teal (#00D4AA) color, geometric clean design, clearly visible on phone screen, trading app symbol, white background, app store compliant");
   ("growth_arrow_icon",
    "Trading mobile app icon: elegant upward arrow, teal (#00D4AA) gradient, minimal modern design, recognizable at small sizes, financial growth symbol, white background, professional fintech app");
   ("stock_bar_icon",
    "Investment app icon for mobile: ascending bar chart pattern, teal (#00D4AA) color scheme, simple geometric design, clear at 64px resolution, trading platform branding, white background");
   ("diamond_trend_icon",
    "Premium trading app icon: diamond shape with upward trend line inside, teal (#00D4AA) accent, luxury fintech design, mobile optimized, clear at small sizes, white background")
  ].

(** ** Payload construction of the class based generators *)

(** [d[key]] on a Python dict with string keys *)
Definition dict_getitem {A} (d : list (string * A)) (key : string) : result A :=
  match assoc key d with
  | Some v => Ok v
  | None => Err KeyError
  end.

(** [d.get(key, default)] on a Python dict with string keys *)
Definition dict_get_default {A} (d : list (string * A)) (key : string) (default : A) : A :=
  match assoc key d with
  | Some v => v
  | None => default
  end.

(** [l[i]] on a Python list: a negative index counts from the end. *)
Definition list_getitem {A} (l : list A) (i : Z) : result A :=
  let n := Z.of_nat (List.length l) in
  let j := if (i <? 0)%Z then (i + n)%Z else i in
  if (0 <=? j)%Z && (j <? n)%Z then
    match nth_error l (Z.to_nat j) with
    | Some a => Ok a
    | None => Err IndexError
    end
  else Err IndexError.

(** The [payload] of [generate_trading_button(style, color_scheme)]. *)
Definition trading_button_payload (style color_scheme : string) : result payload :=
  let prompts := button_prompts color_scheme in
  match dict_getitem prompts "glassmorphic" with
  | Err e => Err e
  | Ok default => Ok (make_payload (dict_get_default prompts style default) 512 128)
  end.

(** The [payload] of [generate_trading_icon(icon_type, style)]. *)
Definition trading_icon_payload (icon_type style : string) : result payload :=
  let prompts := icon_prompts style in
  match dict_getitem prompts "trending_up" with
  | Err e => Err e
  | Ok default => Ok (make_payload (dict_get_default prompts icon_type default) 256 256)
  end.

(** The [payload] of [generate_trading_background(mood, complexity)]. *)
Definition trading_background_payload (mood complexity : string) : result payload :=
  let prompts := background_prompts mood complexity in
  match dict_getitem prompts "bullish" with
  | Err e => Err e
  | Ok default => Ok (make_payload (dict_get_default prompts mood default) 512 1024)
  end.

(** [selected_prompts] and [prompt] of [generate_ai_analytics_icon]. *)
Definition analytics_prompt (style : string) (variation : Z) : result string :=
  match dict_getitem analytics_prompts "modern" with
  | Err e => Err e
  | Ok default =>
      let selected_prompts := dict_get_default analytics_prompts style default in
      if (variation <=? Z.of_nat (List.length selected_prompts))%Z
      then list_getitem selected_prompts (variation - 1)
      else list_getitem selected_prompts 0
  end.

Definition analytics_payload (style : string) (variation : Z) : result payload :=
  match analytics_prompt style variation with
  | Err e => Err e
  | Ok prompt_ => Ok (make_payload prompt_ 512 512)
  end.

(** [str(variation)] *)
Definition str_Z (z : Z) : string := NilZero.string_of_int (Z.to_int z).

Definition generate_trading_button (style color_scheme : string) : M (option (list string)) :=
  payload_ <- lift (trading_button_payload style color_scheme) ;;
  _make_request PremiumTradingAssetsGenerator payload_
    ("button_" ++ style ++ "_" ++ color_scheme)%string.

Definition generate_trading_icon (icon_type style : string) : M (option (list string)) :=
  payload_ <- lift (trading_icon_payload icon_type style) ;;
  _make_request PremiumTradingAssetsGenerator payload_
    ("icon_" ++ icon_type ++ "_" ++ style)%string.

Definition generate_trading_background (mood complexity : string) : M (option (list string)) :=
  payload_ <- lift (trading_background_payload mood complexity) ;;
  _make_request PremiumTradingAssetsGenerator payload_
    ("background_" ++ mood ++ "_" ++ complexity)%string.

Definition generate_ai_analytics_icon (style : string) (variation : Z) : M (option (list string)) :=
  payload_ <- lift (analytics_payload style variation) ;;
  _make_request PremiumIconGenerator payload_
    ("ai_analytics_icon_" ++ style ++ "_v" ++ str_Z variation)%string.

(** ** Batches *)

(** [if result: icons_generated.extend(result)] *)
Definition extend_if (icons_generated : list string) (result_ : option (list string)) : list string :=
  match result_ with
  | Some (f :: fs) => icons_generated ++ f :: fs
  | _ => icons_generated
  end.

(** One of the three [for i in range(...)] loops of
    [generate_multiple_variations]. *)
Fixpoint variations_loop (style : string) (range : list Z) (icons_generated : list string)
    : M (list string) :=
  match range with
  | [] => ret icons_generated
  | i :: rest =>
      result_ <- generate_ai_analytics_icon style i ;;
      let icons_generated' := extend_if icons_generated result_ in
      sleep 1 ;;
      variations_loop style rest icons_generated'
  end.

Definition generate_multiple_variations : M (list string) :=
  print (MsgText "Generating Premium AI Analytics Icons") ;;
  print (MsgText "======================================") ;;
  let icons_generated := [] in
  print (MsgText "Modern Style Icons...") ;;
  icons_generated <- variations_loop "modern" [1; 2; 3]%Z icons_generated ;;
  print (MsgText "Luxury Style Icons...") ;;
  icons_generated <- variations_loop "luxury" [1; 2]%Z icons_generated ;;
  print (MsgText "Tech Style Icons...") ;;
  icons_generated <- variations_loop "tech" [1; 2]%Z icons_generated ;;
  ret icons_generated.

(** [if result: generated_icons.append(result)] with [result] a file name
    or [None]. *)
Definition append_if (generated_icons : list string) (result_ : option string) : list string :=
  match result_ with
  | Some filename =>
      if negb (String.eqb filename "") then generated_icons ++ [filename] else generated_icons
  | None => generated_icons
  end.

(** The [for concept, prompt in ....items()] loop of [main] in
    [create_ai_trading_icons.py] and [create_professional_fintech_icon.py]. *)
Fixpoint ai_main_loop (s : script) (fuel : nat) (items : list (string * string))
    (generated_icons : list string) : M (list string) :=
  match items with
  | [] => ret generated_icons
  | (concept, prompt_) :: rest =>
      print (MsgGenerating concept) ;;
      print (MsgPrompt prompt_) ;;
      result_ <- generate_ai_icon s fuel concept prompt_ ;;
      let generated_icons' := append_if generated_icons result_ in
      print (MsgText "") ;;
      sleep 1 ;;
      ai_main_loop s fuel rest generated_icons'
  end.

Fixpoint print_items (icons : list string) : M unit :=
  match icons with
  | [] => ret tt
  | icon :: rest => print (MsgItem icon) ;; print_items rest
  end.

(** The dict the script iterates over. *)
Definition script_concepts (s : script) : list (string * string) :=
  match s with
  | AiTradingIcons => variations
  | ProfessionalFintechIcons => icon_concepts
  end.

Definition script_title (s : script) : string :=
  match s with
  | AiTradingIcons => "AI Trading Assistant Icon Generator"
  | ProfessionalFintechIcons => "Professional Fintech Mobile App Icon Generator"
  end.

Definition your_icons (s : script) : string :=
  match s with
  | AiTradingIcons => "Your AI Trading Icons:"
  | ProfessionalFintechIcons => "Your Professional Icons:"
  end.

(** ["=" * 50] *)
Definition rule_50 : string :=
  "==================================================".

(** [main] of the two [while True] scripts; it yields the list
    [generated_icons] that it reports. *)
Definition ai_main (s : script) (fuel : nat) : M (list string) :=
  print (MsgText (script_title s)) ;;
  print (MsgText rule_50) ;;
  print (MsgCount (List.length (script_concepts s))) ;;
  print (MsgText "") ;;
  generated_icons <- ai_main_loop s fuel (script_concepts s) [] ;;
  print (MsgText "Generation Complete!") ;;
  print (MsgCount (List.length generated_icons)) ;;
  print (MsgText ("Icons saved in: " ++ icon_dir s ++ "/")%string) ;;
  (if match generated_icons with [] => false | _ => true end
   then print (MsgText (your_icons s)) ;; print_items generated_icons
   else ret tt) ;;
  ret generated_icons.

(** The [for name, prompt in concepts.items()] loop of [main] in
    [create_fintech_mobile_icon.py]. *)
Fixpoint fintech_main_loop (items : list (string * string)) (results : list string)
    : M (list string) :=
  match items with
  | [] => ret results
  | (name, prompt_) :: rest =>
      result_ <- generate_fintech_icon name prompt_ ;;
      let results' := append_if results result_ in
      sleep 3 ;;
      fintech_main_loop rest results'
  end.

(** [main] of [create_fintech_mobile_icon.py]; it yields the list [results]
    whose length it reports. *)
Definition fintech_main : M (list string) :=
  print (MsgText "FINTECH MOBILE APP ICON GENERATOR") ;;
  print (MsgText "====================================") ;;
  print (MsgText "Creating 5 fintech mobile app icons...") ;;
  results <- fintech_main_loop concepts [] ;;
  print (MsgCount (List.length results)) ;;
  print (MsgText "Each icon is specifically designed for mobile app use") ;;
  print (MsgText "Check the 'fintech_icons' directory") ;;
  ret results.

(** ** The remaining methods and batches of the class based generators *)

(** The dict [prompts] of [generate_logo_variation]. *)
Definition logo_prompts (company_name : string) : list (string * string) :=
  [
   ("modern",
    ("Premium modern logo for " ++ company_name ++ ", financial technology branding, clean typography, professional icon, fintech industry, vector style, scalable design")%string);
   ("minimalist",
    ("Ultra-minimalist logo for " ++ company_name ++ ", simple geometric design, financial symbolism, professional branding, clean vector style, timeless design")%string);
   ("tech",
    ("High-tech logo for " ++ company_name ++ ", digital finance theme, futuristic design elements, technology branding, professional fintech identity")%string);
   ("luxury",
    ("Luxury premium logo for " ++ company_name ++ ", sophisticated design, gold and black theme, high-end financial services branding, elegant typography")%string)
  ].

(** The dict [prompts] of [generate_card_design]. *)
Definition card_prompts (theme : string) : list (string * string) :=
  [
   ("stats",
    ("Premium " ++ theme ++ " theme statistics card design, financial metrics display, " ++ theme ++ " background, professional fintech UI, clean layout, mobile optimized")%string);
   ("portfolio",
    ("Premium " ++ theme ++ " theme portfolio card design, investment overview display, " ++ theme ++ " background, professional fintech UI, clean layout, mobile optimized")%string);
   ("news",
    ("Premium " ++ theme ++ " theme news card design, financial news display, " ++ theme ++ " background, professional fintech UI, clean layout, mobile optimized")%string);
   ("alert",
    ("Premium " ++ theme ++ " theme alert card design, trading notification display, " ++ theme ++ " background, professional fintech UI, clean layout, mobile optimized")%string)
  ].

(** The dict [concepts] of [generate_all_concepts] in
    [generate_stunning_trading_icon.py]. *)
Definition stunning_concepts : list (string * string) :=
  [
   ("bull_crystal",
    "3D crystalline bull head, emerald green (#00D4AA) crystal material, faceted gem-like surfaces, premium luxury feel, dramatic lighting, white background, mobile app icon, ultra realistic, 8K quality");
   ("rising_arrow_3d",
    "Elegant 3D upward arrow, sleek metallic teal (#00D4AA) finish, floating above subtle shadow, minimalist luxury design, perfect proportions, white background, professional mobile icon");
   ("chart_mountain",
    "Stylized mountain silhouette formed by ascending chart bars, gradient from dark teal to bright teal (#00D4AA), geometric precision, modern fintech branding, white background");
   ("golden_bull_minimal",
    "Ultra-minimalist golden bull silhouette, single teal (#00D4AA) accent line, sophisticated negative space, luxury trading symbol, pristine white background, perfect mobile icon");
   ("data_orb",
    "Glowing transparent sphere containing rising chart pattern, inner teal (#00D4AA) luminescence, floating particles, high-tech elegance, white background, premium mobile icon");
   ("geometric_growth",
    "Abstract geometric pattern suggesting upward movement, interlocking teal (#00D4AA) shapes, modern architectural style, clean lines, sophisticated design, white background")
  ].

(** The [payload] of [generate_logo_variation(company_name, style)]. *)
Definition trading_logo_payload (company_name style : string) : result payload :=
  let prompts := logo_prompts company_name in
  match dict_getitem prompts "modern" with
  | Err e => Err e
  | Ok default => Ok (make_payload (dict_get_default prompts style default) 512 512)
  end.

(** The [payload] of [generate_card_design(card_type, theme)]. *)
Definition trading_card_payload (card_type theme : string) : result payload :=
  let prompts := card_prompts theme in
  match dict_getitem prompts "stats" with
  | Err e => Err e
  | Ok default => Ok (make_payload (dict_get_default prompts card_type default) 512 256)
  end.

Definition generate_logo_variation (company_name style : string) : M (option (list string)) :=
  payload_ <- lift (trading_logo_payload company_name style) ;;
  _make_request PremiumTradingAssetsGenerator payload_
    ("logo_" ++ company_name ++ "_" ++ style)%string.

Definition generate_card_design (card_type theme : string) : M (option (list string)) :=
  payload_ <- lift (trading_card_payload card_type theme) ;;
  _make_request PremiumTradingAssetsGenerator payload_
    ("card_" ++ card_type ++ "_" ++ theme)%string.

(** [__init__] of the three classes: [os.makedirs(self.output_dir,
    exist_ok=True)]. *)
Definition init (self : generator) : M unit := makedirs (output_dir self).

(** [for x in items: body(x)] *)
Fixpoint for_each {A} (items : list A) (body : A -> M unit) : M unit :=
  match items with
  | [] => ret tt
  | x :: rest => body x ;; for_each rest body
  end.

Definition button_styles : list string :=
  ["glassmorphic"; "neomorphic"; "gradient"; "holographic"].
Definition color_schemes : list string := ["green"; "blue"; "purple"; "gold"].
Definition icon_types : list string :=
  ["trending_up"; "trending_down"; "chart"; "portfolio"; "analytics"].
Definition icon_styles : list string := ["modern"; "minimalist"; "tech"].
Definition moods : list string := ["bullish"; "bearish"; "neutral"; "luxury"].
Definition complexities : list string := ["minimal"; "detailed"].
Definition logo_styles : list string := ["modern"; "minimalist"; "tech"; "luxury"].

(** [main] of [generate_premium_trading_assets.py]; the slices [[:n]] are
    the demo limits of the source, the results of the calls are dropped. *)
Definition trading_assets_main : M unit :=
  print (MsgText "Premium Trading Assets Generator") ;;
  print (MsgText "===================================") ;;
  init PremiumTradingAssetsGenerator ;;
  print (MsgText "Generating Premium Buttons...") ;;
  for_each (firstn 2 button_styles) (fun style =>
    for_each (firstn 2 color_schemes) (fun color =>
      generate_trading_button style color ;;
      sleep 1)) ;;
  print (MsgText "Generating Premium Icons...") ;;
  for_each (firstn 3 icon_types) (fun icon_type =>
    for_each (firstn 2 icon_styles) (fun style =>
      generate_trading_icon icon_type style ;;
      sleep 1)) ;;
  print (MsgText "Generating Premium Backgrounds...") ;;
  for_each (firstn 2 moods) (fun mood =>
    for_each (firstn 1 complexities) (fun complexity =>
      generate_trading_background mood complexity ;;
      sleep 1)) ;;
  print (MsgText "Generating Premium Logos...") ;;
  for_each (firstn 2 logo_styles) (fun style =>
    generate_logo_variation "TradingTipAI" style ;;
    sleep 1) ;;
  print (MsgText "Generation complete! Check the 'generated_trading_assets' directory.") ;;
  print (MsgText "Import these assets into your Flutter app for premium UI elements.").

(** [generate_premium_trading_icon] of [StunningIconGenerator]. *)
Definition generate_premium_trading_icon (concept_name prompt_ : string)
    : M (option (list string)) :=
  _make_request StunningIconGenerator (make_payload prompt_ 512 512) concept_name.

(** The [for concept_name, prompt in concepts.items()] loop of
    [generate_all_concepts]. *)
Fixpoint all_concepts_loop (items : list (string * string)) (icons_generated : list string)
    : M (list string) :=
  match items with
  | [] => ret icons_generated
  | (concept_name, prompt_) :: rest =>
      print (MsgGenerating concept_name) ;;
      result_ <- generate_premium_trading_icon concept_name prompt_ ;;
      let icons_generated' := extend_if icons_generated result_ in
      sleep 2 ;;
      all_concepts_loop rest icons_generated'
  end.

Definition generate_all_concepts : M (list string) :=
  print (MsgText "Generating STUNNING Trading Icons") ;;
  print (MsgText "====================================") ;;
  all_concepts_loop stunning_concepts [].

(** ** Observations on traces *)

Definition is_status_query (e : event) : bool :=
  match e with
  | Request (GetPrediction _) => true
  | _ => false
  end.

Definition is_download (e : event) : bool :=
  match e with
  | Request (GetUrl _) => true
  | _ => false
  end.

Definition is_submission (e : event) : bool :=
  match e with
  | Request (PostPrediction _) => true
  | _ => false
  end.

Definition is_print (e : event) : bool :=
  match e with
  | Print _ => true
  | _ => false
  end.

Definition count (p : event -> bool) (d : trace) : nat := List.length (filter p d).

Definition status_queries (d : trace) : nat := count is_status_query d.
Definition downloads (d : trace) : nat := count is_download d.
Definition submissions (d : trace) : nat := count is_submission d.

(** The seconds spent in [time.sleep] during a run. *)
Fixpoint slept (d : trace) : nat :=
  match d with
  | [] => 0
  | Sleep n :: rest => n + slept rest
  | _ :: rest => slept rest
  end.

(** The files written during a run, oldest first. *)
Fixpoint written_files (d : trace) : list string :=
  match d with
  | [] => []
  | WriteFile path _ :: rest => path :: written_files rest
  | _ :: rest => written_files rest
  end.

(** The prompts submitted during a run, oldest first. *)
Fixpoint submitted_prompts (d : trace) : list string :=
  match d with
  | [] => []
  | Request (PostPrediction p) :: rest => prompt p :: submitted_prompts rest
  | _ :: rest => submitted_prompts rest
  end.

(** The requests sent during a run, oldest first. *)
Fixpoint requests_of (d : trace) : list request :=
  match d with
  | [] => []
  | Request r :: rest => r :: requests_of rest
  | _ :: rest => requests_of rest
  end.

(** The status the class based poller reads off a reply, when it gets that
    far: no exception from the transport, no error status code, a dict. *)
Definition reported_status (rp : reply) : option json :=
  match rp with
  | NoResponse => None
  | Responded r =>
      if is_http_error (status_code r) then None
      else match dict_get (json_body r) "status" JNull with
           | Ok s => Some s
           | Err _ => None
           end
  end.

Definition is_terminal (status : json) : bool :=
  eq_str status "succeeded" || eq_str status "failed".

(** Replies after which [_poll_prediction] goes to its next attempt: a
    transport error, an error status code, or a status that is neither
    [succeeded] nor [failed]. *)
Definition keeps_polling (rp : reply) : bool :=
  match rp with
  | NoResponse => true
  | Responded r =>
      if is_http_error (status_code r) then true
      else match dict_get (json_body r) "status" JNull with
           | Ok s => negb (is_terminal s)
           | Err _ => false
           end
  end.

(** A download succeeds when a response arrives without an error status. *)
Definition fetch_ok (rp : reply) : bool :=
  match rp with
  | NoResponse => false
  | Responded r => negb (is_http_error (status_code r))
  end.

(** Replies that respect the interface of the service.  A submission that
    is not refused carries an [id]; a status reply that is not an error is a
    dict, and an [output] that counts as present can be iterated. *)
Definition iterable (x : json) : bool :=
  match iterate x with
  | Ok _ => true
  | Err _ => false
  end.

Definition well_formed_submission (rp : reply) : bool :=
  match rp with
  | NoResponse => true
  | Responded r =>
      is_http_error (status_code r)
      || match getitem_key (json_body r) "id" with
         | Ok _ => true
         | Err _ => false
         end
  end.

Definition well_formed_status (rp : reply) : bool :=
  match rp with
  | NoResponse => true
  | Responded r =>
      is_http_error (status_code r)
      || match json_body r with
         | JObj fields =>
             match assoc "output" fields with
             | Some output => negb (truthy output) || iterable output
             | None => true
             end
         | _ => false
         end
  end.

Definition conforms (w : world) : Prop :=
  (forall h p, well_formed_submission (network w h (PostPrediction p)) = true)
  /\ (forall h id, well_formed_status (network w h (GetPrediction id)) = true).

(** ** Worlds used in the examples *)

Definition json_reply (code : Z) (phrase : string) (body : json) : reply :=
  Responded (mkResponse code phrase "" body).

Definition created (id : string) : reply :=
  json_reply 201 "Created" (JObj [("id", JStr id)]).

Definition status_reply (status : string) : reply :=
  json_reply 200 "OK" (JObj [("status", JStr status)]).

Definition succeeded_reply (urls : list string) : reply :=
  json_reply 200 "OK"
    (JObj [("status", JStr "succeeded"); ("output", JArr (map JStr urls))]).


Definition image_reply (bytes : string) : reply :=
  Responded (mkResponse 200 "OK" bytes JNull).

Definition noon : datetime := mkDatetime "20250101" "120000".

(** A service that accepts every submission as job [p1], answers the n-th
    status query of a run with the n-th element of [statuses] (and with
    [otherwise] after that) and serves every download with [image]. *)
Definition scripted (statuses : list reply) (otherwise image : reply) : world :=
  {| network := fun h r =>
       match r with
       | PostPrediction _ => created "p1"
       | GetPrediction _ => nth (status_queries h) statuses otherwise
       | GetUrl _ => image
       end;
     clock := fun _ => noon |}.

(** ** Definitions used to state the properties *)

(** The file a successful download of the [i]-th output is written to. *)
Definition asset_path (self : generator) (filename_prefix : string) (i : nat) (d : datetime)
    : string :=
  path_join (output_dir self) (asset_filename self filename_prefix (timestamp_of d) i).

(** What an outcome of a pipeline says about the files written: a returned
    file name is the one file written, and nothing was written otherwise. *)
Definition files_agree {A} (saved : A -> option string) (o : outcome A) (d : trace) : Prop :=
  match o with
  | Returns a =>
      match saved a with
      | Some filename => written_files d = [filename] /\ filename <> ""
      | None => written_files d = []
      end
  | _ => written_files d = []
  end.

(** The file name a poll turn of the fintech script returns, if any. *)
Definition saved_by_turn (c : control (option string)) : option string :=
  match c with
  | Return (Some filename) => Some filename
  | _ => None
  end.

(** The file name a poll turn of the [while True] scripts returns, if any. *)
Definition saved_by_ai_turn (c : control string) : option string :=
  match c with
  | Return filename => Some filename
  | _ => None
  end.

(** The files a pipeline reports. *)
Definition files_of (o : outcome (option (list string))) : list string :=
  match o with
  | Returns (Some files) => files
  | _ => []
  end.

(** A service that keeps answering [processing]. *)
Definition always_processing : world :=
  scripted [] (status_reply "processing") (image_reply "").

(** A service that refuses every request with status 401 and the given
    body. *)
Definition unauthorized (body : string) : world :=
  {| network := fun _ _ => Responded (mkResponse 401 "Unauthorized" body JNull);
     clock := fun _ => noon |}.


(** A job that is ready at the second status query; the first status query
    fails in transit. *)
Definition one_blip : world :=
  scripted [NoResponse] (succeeded_reply ["https://cdn/out.png"]) (image_reply "PNG").


(** A service that accepts every job, reports it as succeeded with one
    output, and serves it. *)
Definition always_succeeds : world :=
  scripted [] (succeeded_reply ["https://cdn/out.png"]) (image_reply "PNG").

(** A service that fails on every request. *)
Definition always_down : world :=
  {| network := fun _ _ => json_reply 500 "Internal Server Error" JNull;
     clock := fun _ => noon |}.


(** A job reported as succeeded with an empty list of outputs. *)
Definition succeeded_without_output : world :=
  scripted [] (succeeded_reply []) (image_reply "PNG").

(** * Properties *)

(** The end-to-end scenario: [processing] twice, then [succeeded] with one
    output; the poller issues three status queries and one download. *)
Example end_to_end :
  let w := scripted [status_reply "processing"; status_reply "processing"]
             (succeeded_reply ["https://cdn/out.png"]) (image_reply "PNG") in
  let run := _make_request PremiumTradingAssetsGenerator (make_payload "x" 512 128) "button" w [] in
  fst run = Returns (Some ["generated_trading_assets/button_20250101_120000_1.png"])
  /\ status_queries (snd run) = 3
  /\ downloads (snd run) = 1
  /\ written_files (snd run) = ["generated_trading_assets/button_20250101_120000_1.png"].
Proof. vm_compute. repeat split. Qed.

(** ** Counting events *)

Lemma count_app (p : event -> bool) (a b : trace) :
  count p (a ++ b) = count p a + count p b.
Proof. unfold count. now rewrite filter_app, length_app. Qed.

Lemma count_cons (p : event -> bool) (e : event) (d : trace) :
  count p (e :: d) = (if p e then 1 else 0) + count p d.
Proof. unfold count. simpl. now destruct (p e). Qed.

Lemma count_nil (p : event -> bool) : count p [] = 0.
Proof. reflexivity. Qed.

Lemma written_files_app (a b : trace) :
  written_files (a ++ b) = written_files a ++ written_files b.
Proof.
  induction a as [|e a IH]; simpl; [reflexivity|].
  destruct e; simpl; now rewrite IH.
Qed.

Lemma submitted_prompts_app (a b : trace) :
  submitted_prompts (a ++ b) = submitted_prompts a ++ submitted_prompts b.
Proof.
  induction a as [|e a IH]; simpl; [reflexivity|].
  destruct e as [[p | id | url] | | | | ]; simpl; now rewrite IH.
Qed.

Lemma requests_of_app (a b : trace) :
  requests_of (a ++ b) = requests_of a ++ requests_of b.
Proof.
  induction a as [|e a IH]; simpl; [reflexivity|].
  destruct e; simpl; now rewrite IH.
Qed.

(** ** Running the monad *)

Ltac unfold_py :=
  unfold bind, ret, raise, lift, print, sleep, makedirs, write_file, emit,
    now, send, try_except, raise_for_status in *.

Lemma bind_returns {A B} (m : M A) (k : A -> M B) w h a d1 :
  m w h = (Returns a, d1) ->
  bind m k w h = (fst (k a w (h ++ d1)), d1 ++ snd (k a w (h ++ d1))).
Proof. unfold bind. intros ->. now destruct (k a w (h ++ d1)). Qed.

Lemma bind_raises {A B} (m : M A) (k : A -> M B) w h e d1 :
  m w h = (Raises e, d1) -> bind m k w h = (Raises e, d1).
Proof. unfold bind. now intros ->. Qed.

Lemma bind_diverges {A B} (m : M A) (k : A -> M B) w h d1 :
  m w h = (Diverges, d1) -> bind m k w h = (Diverges, d1).
Proof. unfold bind. now intros ->. Qed.

Lemma bind_emit {B} (e : event) (k : unit -> M B) w h :
  bind (emit e) k w h = (fst (k tt w (h ++ [e])), e :: snd (k tt w (h ++ [e]))).
Proof. unfold bind, emit. now destruct (k tt w (h ++ [e])). Qed.

Lemma bind_print {B} (m : message) (k : unit -> M B) w h :
  bind (print m) k w h
  = (fst (k tt w (h ++ [Print m])), Print m :: snd (k tt w (h ++ [Print m]))).
Proof. apply bind_emit. Qed.

Lemma bind_sleep {B} (n : nat) (k : unit -> M B) w h :
  bind (sleep n) k w h
  = (fst (k tt w (h ++ [Sleep n])), Sleep n :: snd (k tt w (h ++ [Sleep n]))).
Proof. apply bind_emit. Qed.

(** The loops, one turn at a time. *)

Lemma poll_loop_unfold self prediction_id filename_prefix max_attempts attempt remaining w h :
  poll_loop self prediction_id filename_prefix max_attempts attempt (S remaining) w h =
  match poll_attempt self prediction_id filename_prefix max_attempts attempt w h with
  | (Returns (Return v), d) => (Returns v, d)
  | (Returns _, d) =>
      let rest := poll_loop self prediction_id filename_prefix max_attempts (S attempt)
                    remaining w (h ++ d) in
      (fst rest, d ++ snd rest)
  | (Raises e, d) => (Raises e, d)
  | (Diverges, d) => (Diverges, d)
  end.
Proof.
  simpl. unfold bind at 1.
  destruct (poll_attempt self prediction_id filename_prefix max_attempts attempt w h)
    as [[[| |v]|e|] d]; try reflexivity.
  - now destruct (poll_loop _ _ _ _ _ _ _ _).
  - now destruct (poll_loop _ _ _ _ _ _ _ _).
  - unfold ret. now rewrite app_nil_r.
Qed.

Lemma while_true_unfold {A} fuel (body : M (control A)) w h :
  while_true (S fuel) body w h =
  match body w h with
  | (Returns Continue, d) =>
      let rest := while_true fuel body w (h ++ d) in (fst rest, d ++ snd rest)
  | (Returns Break, d) => (Returns None, d)
  | (Returns (Return a), d) => (Returns (Some a), d)
  | (Raises e, d) => (Raises e, d)
  | (Diverges, d) => (Diverges, d)
  end.
Proof.
  simpl. unfold bind at 1.
  destruct (body w h) as [[[| |v]|e|] d]; try reflexivity.
  - now destruct (while_true fuel body w (h ++ d)).
  - unfold ret. now rewrite app_nil_r.
  - unfold ret. now rewrite app_nil_r.
Qed.

Lemma fintech_poll_loop_unfold concept_name prediction_id remaining w h :
  fintech_poll_loop concept_name prediction_id (S remaining) w h =
  match fintech_poll_turn concept_name prediction_id w h with
  | (Returns (Return v), d) => (Returns v, d)
  | (Returns _, d) =>
      let rest := fintech_poll_loop concept_name prediction_id remaining w (h ++ d) in
      (fst rest, d ++ snd rest)
  | (Raises e, d) => (Raises e, d)
  | (Diverges, d) => (Diverges, d)
  end.
Proof.
  simpl. unfold bind at 1.
  destruct (fintech_poll_turn concept_name prediction_id w h)
    as [[[| |v]|e|] d]; try reflexivity.
  - now destruct (fintech_poll_loop _ _ _ _ _).
  - now destruct (fintech_poll_loop _ _ _ _ _).
  - unfold ret. now rewrite app_nil_r.
Qed.

#[global] Arguments poll_loop : simpl never.
#[global] Arguments while_true : simpl never.
#[global] Arguments fintech_poll_loop : simpl never.

(** ** [_download_assets] *)

Lemma download_one_eq self filename_prefix i url files w h :
  download_one self filename_prefix i url files w h =
  match network w h (GetUrl url) with
  | NoResponse =>
      (Returns files,
       [Request (GetUrl url); Print (MsgDownloadFailed url ConnectionErrorText)])
  | Responded r =>
      if is_http_error (status_code r) then
        (Returns files,
         [Request (GetUrl url);
          Print (MsgDownloadFailed url (HttpErrorText (status_code r) (reason r)))])
      else
        let path := asset_path self filename_prefix i (clock w (h ++ [Request (GetUrl url)])) in
        (Returns (files ++ [path]),
         [Request (GetUrl url); WriteFile path (content r); Print (MsgDownloaded path)])
  end.
Proof.
  unfold download_one, asset_path. unfold_py.
  destruct (network w h (GetUrl url)) as [|r]; simpl; [reflexivity|].
  fold (is_http_error (status_code r)).
  destruct (is_http_error (status_code r)); simpl; [reflexivity|].
  now rewrite !app_nil_r.
Qed.

Lemma download_one_spec self filename_prefix i url files w h :
  exists new d,
    download_one self filename_prefix i url files w h = (Returns (files ++ new), d)
    /\ requests_of d = [GetUrl url]
    /\ written_files d = new
    /\ new = (if fetch_ok (network w h (GetUrl url))
              then [asset_path self filename_prefix i (clock w (h ++ [Request (GetUrl url)]))]
              else []).
Proof.
  rewrite download_one_eq.
  destruct (network w h (GetUrl url)) as [|r]; simpl.
  - exists []. eexists. rewrite app_nil_r. repeat split; reflexivity.
  - destruct (is_http_error (status_code r)); simpl.
    + exists []. eexists. rewrite app_nil_r. repeat split; reflexivity.
    + eexists. eexists. repeat split; reflexivity.
Qed.

Lemma download_loop_spec self filename_prefix items :
  forall i files w h,
  exists new d,
    download_loop self filename_prefix items i files w h = (Returns (files ++ new), d)
    /\ requests_of d = map GetUrl items
    /\ written_files d = new
    /\ List.length new <= List.length items.
Proof.
  induction items as [|url rest IH]; intros i files w h; simpl.
  - exists [], []. rewrite app_nil_r. repeat split; auto.
  - destruct (download_one_spec self filename_prefix i url files w h)
      as (new1 & d1 & E1 & R1 & W1 & N1).
    rewrite (bind_returns _ _ _ _ _ _ E1).
    destruct (IH (S i) (files ++ new1) w (h ++ d1)) as (new2 & d2 & E2 & R2 & W2 & L2).
    rewrite E2. simpl.
    exists (new1 ++ new2), (d1 ++ d2).
    rewrite app_assoc, requests_of_app, written_files_app, R1, R2, W1, W2.
    repeat split; try reflexivity.
    rewrite length_app.
    assert (List.length new1 <= 1)
      by (rewrite N1; destruct (fetch_ok _); simpl; auto).
    lia.
Qed.

Lemma count_requests (p : event -> bool) (d : trace) :
  (forall e, p e = true -> exists r, e = Request r) ->
  count p d = List.length (filter (fun r => p (Request r)) (requests_of d)).
Proof.
  intros Hp. induction d as [|e d IH]; [reflexivity|].
  rewrite count_cons, IH.
  destruct e as [r| | | |]; simpl;
    try (destruct (p _) eqn:E; [apply Hp in E; destruct E; discriminate | reflexivity]).
  now destruct (p (Request r)).
Qed.

Lemma status_queries_requests d :
  status_queries d =
  List.length (filter (fun r => is_status_query (Request r)) (requests_of d)).
Proof.
  apply count_requests. intros [r| | | |]; try discriminate. now exists r.
Qed.

Lemma downloads_requests d :
  downloads d = List.length (filter (fun r => is_download (Request r)) (requests_of d)).
Proof.
  apply count_requests. intros [r| | | |]; try discriminate. now exists r.
Qed.

Lemma submissions_requests d :
  submissions d = List.length (filter (fun r => is_submission (Request r)) (requests_of d)).
Proof.
  apply count_requests. intros [r| | | |]; try discriminate. now exists r.
Qed.

Lemma only_downloads d (items : list json) :
  requests_of d = map GetUrl items ->
  status_queries d = 0 /\ submissions d = 0 /\ downloads d = List.length items.
Proof.
  intros E.
  rewrite status_queries_requests, submissions_requests, downloads_requests, E.
  clear E. induction items as [|u items (IH1 & IH2 & IH3)]; simpl; auto.
Qed.

(** [_download_assets] on any value: it returns the files it wrote, or
    raises [TypeError] before any request when the value cannot be
    iterated. *)
Lemma download_assets_spec self urls filename_prefix w h :
  (exists items files d,
      iterate urls = Ok items
      /\ _download_assets self urls filename_prefix w h = (Returns files, d)
      /\ requests_of d = map GetUrl items
      /\ written_files d = files
      /\ List.length files <= List.length items)
  \/ (iterate urls = Err TypeError
      /\ _download_assets self urls filename_prefix w h = (Raises TypeError, [])).
Proof.
  unfold _download_assets.
  destruct (iterate urls) as [items|e] eqn:E.
  - left.
    destruct (download_loop_spec self filename_prefix items 0 [] w (h ++ []))
      as (new & d & E1 & R1 & W1 & L1).
    exists items, new, d. split; [reflexivity|].
    unfold bind, lift, ret. rewrite E1. simpl. auto.
  - right.
    assert (e = TypeError) as ->
        by (destruct urls; simpl in E; congruence).
    split; reflexivity.
Qed.

(** ** One attempt of [_poll_prediction] *)

#[local] Arguments in_strs : simpl never.

Lemma print_progress_returns self filename_prefix status attempt max_attempts w h :
  exists msgs,
    print_progress self filename_prefix status attempt max_attempts w h = (Returns tt, msgs)
    /\ requests_of msgs = [] /\ written_files msgs = []
    /\ forallb is_print msgs = true.
Proof.
  unfold print_progress, print, emit, ret.
  destruct self; try (eexists; repeat split; reflexivity).
  destruct (Nat.eqb (attempt mod 5) 0); eexists; repeat split; reflexivity.
Qed.

Section PollAttempt.

Variables (self : generator) (prediction_id : json) (filename_prefix : string).
Variables (max_attempts attempt : nat) (w : world) (h : trace).

Abbreviation query := (GetPrediction prediction_id) (only parsing).
Abbreviation turn :=
  (poll_attempt self prediction_id filename_prefix max_attempts attempt w h)
  (only parsing).

Lemma poll_attempt_no_response :
  network w h query = NoResponse ->
  turn = (Returns Continue,
          [Request query;
           Print (MsgPollingError filename_prefix ConnectionErrorText);
           Sleep 2]).
Proof.
  intros E. unfold poll_attempt. unfold_py. now rewrite E.
Qed.

Lemma poll_attempt_http_error r :
  network w h query = Responded r ->
  is_http_error (status_code r) = true ->
  turn = (Returns Continue,
          [Request query;
           Print (MsgPollingError filename_prefix (HttpErrorText (status_code r) (reason r)));
           Sleep 2]).
Proof.
  intros E C. unfold poll_attempt. unfold_py. rewrite E. simpl. now rewrite C.
Qed.

Lemma poll_attempt_malformed r e :
  network w h query = Responded r ->
  is_http_error (status_code r) = false ->
  dict_get (json_body r) "status" JNull = Err e ->
  turn = (Raises AttributeError, [Request query]).
Proof.
  intros E C St.
  assert (e = AttributeError) as ->.
  { destruct (json_body r) as [| | | | |fields]; simpl in St; try congruence.
    destruct (assoc "status" fields); discriminate. }
  unfold poll_attempt. unfold_py. rewrite E. simpl. rewrite C. simpl.
  now rewrite St.
Qed.

(** With a dict as body every [data.get] succeeds. *)
Lemma dict_get_total d key default v key' default' :
  dict_get d key default = Ok v ->
  exists v', dict_get d key' default' = Ok v'.
Proof.
  destruct d as [| | | | |fields]; simpl; try discriminate. intros _.
  destruct (assoc key' fields); eauto.
Qed.

Lemma poll_attempt_unknown r status :
  network w h query = Responded r ->
  is_http_error (status_code r) = false ->
  dict_get (json_body r) "status" JNull = Ok status ->
  is_terminal status = false ->
  in_strs status ["starting"; "processing"] = false ->
  turn = (Returns Continue,
          [Request query; Print (MsgUnknownStatus filename_prefix status); Sleep 2]).
Proof.
  intros E C St T R. unfold poll_attempt. unfold_py. rewrite E. simpl.
  rewrite C. simpl. rewrite St. simpl.
  unfold is_terminal in T. apply orb_false_iff in T as [T1 T2].
  rewrite T1, T2. simpl. now rewrite R.
Qed.

Lemma poll_attempt_running r status :
  network w h query = Responded r ->
  is_http_error (status_code r) = false ->
  dict_get (json_body r) "status" JNull = Ok status ->
  in_strs status ["starting"; "processing"] = true ->
  turn = (Returns Continue,
          Request query ::
          snd (print_progress self filename_prefix status attempt max_attempts w
                 (h ++ [Request query]))
          ++ [Sleep 2]).
Proof.
  intros E C St R. unfold poll_attempt. unfold_py. rewrite E. simpl.
  rewrite C. simpl. rewrite St. simpl.
  assert (eq_str status "succeeded" = false /\ eq_str status "failed" = false) as [T1 T2].
  { unfold in_strs in R. destruct status; simpl in *; try discriminate.
    rewrite orb_false_r in R. apply orb_true_iff in R as [R|R];
      apply String.eqb_eq in R; subst; split; reflexivity. }
  rewrite T1, T2, R. rewrite !app_nil_r.
  destruct (print_progress_returns self filename_prefix status attempt max_attempts w
              (h ++ [Request query])) as (msgs & P & _).
  rewrite P. reflexivity.
Qed.

Lemma poll_attempt_failed r status :
  network w h query = Responded r ->
  is_http_error (status_code r) = false ->
  dict_get (json_body r) "status" JNull = Ok status ->
  eq_str status "failed" = true ->
  exists error,
    dict_get (json_body r) "error" (JStr "Unknown error") = Ok error
    /\ turn = (Returns (Return None),
               [Request query; Print (MsgGenerationFailed filename_prefix error)]).
Proof.
  intros E C St F.
  destruct (dict_get_total _ _ _ _ "error" (JStr "Unknown error") St) as [error Er].
  exists error. split; [assumption|].
  unfold poll_attempt. unfold_py. rewrite E. simpl.
  rewrite C. simpl. rewrite St. simpl.
  assert (eq_str status "succeeded" = false) as T1.
  { destruct status; simpl in *; try discriminate.
    apply String.eqb_eq in F. now subst. }
  rewrite T1, F, Er. reflexivity.
Qed.

Lemma poll_attempt_no_output r status output :
  network w h query = Responded r ->
  is_http_error (status_code r) = false ->
  dict_get (json_body r) "status" JNull = Ok status ->
  eq_str status "succeeded" = true ->
  dict_get (json_body r) "output" (JArr []) = Ok output ->
  truthy output = false ->
  turn = (Returns (Return None),
          [Request query; Print (MsgNoOutputUrls filename_prefix)]).
Proof.
  intros E C St F O T. unfold poll_attempt. unfold_py. rewrite E. simpl.
  rewrite C. simpl. rewrite St. simpl.
  rewrite F, O. simpl. now rewrite T.
Qed.

Lemma poll_attempt_output r status output :
  network w h query = Responded r ->
  is_http_error (status_code r) = false ->
  dict_get (json_body r) "status" JNull = Ok status ->
  eq_str status "succeeded" = true ->
  dict_get (json_body r) "output" (JArr []) = Ok output ->
  truthy output = true ->
  (exists items files d,
      iterate output = Ok items
      /\ turn = (Returns (Return (Some files)), Request query :: d)
      /\ requests_of d = map GetUrl items
      /\ written_files d = files)
  \/ (iterate output = Err TypeError
      /\ turn = (Raises TypeError, [Request query])).
Proof.
  intros E C St F O T.
  assert (turn =
          match _download_assets self output filename_prefix w (h ++ [Request query]) with
          | (Returns files, d) => (Returns (Return (Some files)), Request query :: d)
          | (Raises e, d) =>
              if is_RequestException e
              then (Returns Continue,
                    Request query :: d ++
                    [Print (MsgPollingError filename_prefix (str_exn e)); Sleep 2])
              else (Raises e, Request query :: d)
          | (Diverges, d) => (Diverges, Request query :: d)
          end) as Eq.
  { unfold poll_attempt. unfold_py. rewrite E. simpl.
    rewrite C. simpl. rewrite St. simpl.
    rewrite F, O. simpl. rewrite T. rewrite !app_nil_r.
    destruct (_download_assets self output filename_prefix w (h ++ [Request query]))
      as [[files|e|] d];
      simpl; rewrite ?app_nil_r; reflexivity. }
  destruct (download_assets_spec self output filename_prefix w (h ++ [Request query]))
    as [(items & files & d & I & D & R & W & _) | (I & D)]; rewrite D in Eq.
  - left. exists items, files, d. auto.
  - right. auto.
Qed.

End PollAttempt.

(** Every attempt starts with its status query and sends no other status
    query or submission; it tells the loop to go on exactly after the
    replies of [keeps_polling], and ends the poll after a terminal status. *)
Lemma poll_attempt_shape self prediction_id filename_prefix max_attempts attempt w h :
  let rp := network w h (GetPrediction prediction_id) in
  exists o d,
    poll_attempt self prediction_id filename_prefix max_attempts attempt w h
      = (o, Request (GetPrediction prediction_id) :: d)
    /\ status_queries d = 0
    /\ submissions d = 0
    /\ o <> Diverges
    /\ o <> Returns Break
    /\ (forall e, o = Raises e -> is_RequestException e = false)
    /\ (keeps_polling rp = true -> o = Returns Continue)
    /\ (forall s, reported_status rp = Some s -> is_terminal s = true ->
        o <> Returns Continue)
    /\ written_files d = match o with
                         | Returns (Return (Some files)) => files
                         | _ => []
                         end
    /\ (forall e, o = Raises e -> well_formed_status rp = false).
Proof.
  intros rp. subst rp.
  destruct (network w h (GetPrediction prediction_id)) as [|r] eqn:E.
  { eexists. eexists. split; [now apply poll_attempt_no_response|].
    repeat split; try reflexivity; try discriminate. }
  simpl. destruct (is_http_error (status_code r)) eqn:C.
  { eexists. eexists.
    split; [exact (poll_attempt_http_error _ _ _ _ _ _ _ r E C)|].
    repeat split; try reflexivity; try discriminate. }
  destruct (dict_get (json_body r) "status" JNull) as [status|e] eqn:S.
  2:{ eexists. eexists.
      split; [exact (poll_attempt_malformed _ _ _ _ _ _ _ r e E C S)|].
      repeat split; try reflexivity; try discriminate.
      - intros e' [= <-]. reflexivity.
      - intros _ _. destruct (json_body r) as [| | | | |fields]; simpl in *;
          try reflexivity.
        destruct (assoc "status" fields); discriminate. }
  destruct (eq_str status "succeeded") eqn:T1.
  { destruct (dict_get_total _ _ _ _ "output" (JArr []) S) as [output O].
    assert (is_terminal status = true) as T by (unfold is_terminal; now rewrite T1).
    rewrite T. simpl.
    destruct (truthy output) eqn:Tr.
    - destruct (poll_attempt_output self prediction_id filename_prefix max_attempts attempt
                  w h r status output E C S T1 O Tr)
        as [(items & files & d & I & P & R & W) | (I & P)].
      + exists (Returns (Return (Some files))), d. split; [exact P|].
        destruct (only_downloads d items R) as (Q1 & Q2 & _).
        repeat split; try assumption; try discriminate.
      + eexists. eexists. split; [exact P|].
        repeat split; try reflexivity; try discriminate.
        * intros e' [= <-]. reflexivity.
        * intros _ _. destruct (json_body r) as [| | | | |fields]; simpl in *;
            try discriminate.
          destruct (assoc "output" fields) as [out|].
          -- injection O as ->. unfold iterable. now rewrite Tr, I.
          -- injection O as <-. discriminate.
    - eexists. eexists.
      split; [exact (poll_attempt_no_output _ _ _ _ _ _ _ r status output E C S T1 O Tr)|].
      repeat split; try reflexivity; try discriminate. }
  destruct (eq_str status "failed") eqn:T2.
  { assert (is_terminal status = true) as T
        by (unfold is_terminal; rewrite T2; apply orb_true_r).
    rewrite T. simpl.
    destruct (poll_attempt_failed self prediction_id filename_prefix max_attempts attempt
                w h r status E C S T2) as (error & _ & P).
    eexists. eexists. split; [exact P|].
    repeat split; try reflexivity; try discriminate. }
  assert (is_terminal status = false) as T by (unfold is_terminal; now rewrite T1, T2).
  rewrite T. simpl.
  destruct (in_strs status ["starting"; "processing"]) eqn:R.
  - destruct (print_progress_returns self filename_prefix status attempt max_attempts w
                (h ++ [Request (GetPrediction prediction_id)])) as (msgs & P & Rq & Wm & _).
    eexists. eexists.
    split; [exact (poll_attempt_running _ _ _ _ _ _ _ r status E C S R)|].
    rewrite P. simpl.
    rewrite status_queries_requests, submissions_requests, requests_of_app, Rq.
    rewrite written_files_app, Wm.
    repeat split; try reflexivity; try discriminate.
    intros s [= <-]. congruence.
  - eexists. eexists.
    split; [exact (poll_attempt_unknown _ _ _ _ _ _ _ r status E C S T R)|].
    repeat split; try reflexivity; try discriminate.
    intros s [= <-]. congruence.
Qed.

(** ** The loop of [_poll_prediction] *)

Lemma status_queries_cons e d :
  status_queries (e :: d) = (if is_status_query e then 1 else 0) + status_queries d.
Proof. apply count_cons. Qed.

Lemma status_queries_app a b :
  status_queries (a ++ b) = status_queries a + status_queries b.
Proof. apply count_app. Qed.

(** The poll never sends more status queries than it has attempts left,
    sends no submission, and always comes back. *)
Lemma poll_loop_bound self prediction_id filename_prefix max_attempts remaining :
  forall attempt w h,
    let run := poll_loop self prediction_id filename_prefix max_attempts attempt remaining w h in
    status_queries (snd run) <= remaining
    /\ submissions (snd run) = 0
    /\ fst run <> Diverges.
Proof.
  induction remaining as [|remaining IH]; intros attempt w h run; subst run.
  - simpl. repeat split; [apply Nat.le_refl | discriminate].
  - rewrite poll_loop_unfold.
    destruct (poll_attempt_shape self prediction_id filename_prefix max_attempts attempt w h)
      as (o & d & E & Q & Sb & ND & NB & _).
    rewrite E.
    specialize (IH (S attempt) w (h ++ Request (GetPrediction prediction_id) :: d)).
    destruct IH as (IH1 & IH2 & IH3).
    assert (status_queries (Request (GetPrediction prediction_id) :: d) = 1) as Q1
        by (rewrite status_queries_cons, Q; reflexivity).
    assert (submissions (Request (GetPrediction prediction_id) :: d) = 0) as S1
        by (unfold submissions; rewrite count_cons; exact Sb).
    destruct o as [[| |v]|e|]; cbn [fst snd];
      try (rewrite Q1; repeat split; [lia | exact S1 | discriminate]);
      try congruence.
    rewrite status_queries_app, Q1. unfold submissions in *.
    rewrite count_app, S1, IH2. repeat split; [lia | assumption].
Qed.

Lemma split_after_prefix (x : event) (d1 d2 d rest : trace) :
  d1 ++ x :: d2 = d ++ rest ->
  is_status_query x = true ->
  status_queries d = 0 ->
  exists d1', d1 = d ++ d1' /\ rest = d1' ++ x :: d2.
Proof.
  revert d1. induction d as [|e d IH]; intros d1 E X Q.
  - exists d1. auto.
  - rewrite status_queries_cons in Q.
    destruct (is_status_query e) eqn:Qe; [discriminate|]. simpl in Q.
    destruct d1 as [|e1 d1]; simpl in E; injection E as -> E.
    + congruence.
    + destruct (IH d1 E X Q) as (d1' & -> & ->). exists d1'. auto.
Qed.

(** Once a status query has been answered with a terminal status, the poll
    sends no further status query. *)
Lemma poll_loop_stops self prediction_id filename_prefix max_attempts remaining :
  forall attempt w h d1 id d2 s,
    snd (poll_loop self prediction_id filename_prefix max_attempts attempt remaining w h)
      = d1 ++ Request (GetPrediction id) :: d2 ->
    reported_status (network w (h ++ d1) (GetPrediction id)) = Some s ->
    is_terminal s = true ->
    status_queries d2 = 0.
Proof.
  induction remaining as [|remaining IH]; intros attempt w h d1 id d2 s E R T.
  - simpl in E. destruct d1 as [|e [|e' d1]]; discriminate.
  - rewrite poll_loop_unfold in E.
    destruct (poll_attempt_shape self prediction_id filename_prefix max_attempts attempt w h)
      as (o & d & P & Q & _ & ND & NB & _ & _ & Term & _).
    rewrite P in E.
    assert (forall tl,
               Request (GetPrediction prediction_id) :: tl
               = d1 ++ Request (GetPrediction id) :: d2 ->
               (d1 = [] /\ id = prediction_id /\ tl = d2)
               \/ exists d1', d1 = Request (GetPrediction prediction_id) :: d1'
                              /\ tl = d1' ++ Request (GetPrediction id) :: d2) as Split.
    { intros tl Etl. destruct d1 as [|e d1]; simpl in Etl; injection Etl as <- Etl.
      - left. auto.
      - right. exists d1. auto. }
    assert (forall d1', d = d1' ++ Request (GetPrediction id) :: d2 -> False) as NotIn.
    { intros d1' ->. rewrite status_queries_app, status_queries_cons in Q.
      simpl in Q. lia. }
    destruct o as [[| |v]|e|]; cbn [fst snd] in E; try congruence.
    + (* the attempt told the loop to go on *)
      rewrite <- app_comm_cons in E.
      destruct (Split _ E) as [(-> & -> & _) | (d1' & -> & E')].
      * rewrite app_nil_r in R. exfalso. now apply (Term s R T).
      * symmetry in E'.
        destruct (split_after_prefix _ _ _ _ _ E' eq_refl Q) as (d1'' & -> & E'').
        apply (IH (S attempt) w (h ++ Request (GetPrediction prediction_id) :: d)
                 d1'' id d2 s); [exact E'' | | exact T].
        now rewrite <- app_assoc.
    + destruct (Split _ E) as [(_ & _ & <-) | (d1' & _ & E')];
        [assumption | exfalso; eauto].
    + destruct (Split _ E) as [(_ & _ & <-) | (d1' & _ & E')];
        [assumption | exfalso; eauto].
Qed.

(** ** The [while True] poll loop of the one-shot scripts *)

Section AiPollTurn.

Variables (s : script) (concept_name : string) (prediction_id : json).
Variables (w : world) (h : trace).

Abbreviation query := (GetPrediction prediction_id) (only parsing).
Abbreviation turn := (ai_poll_turn s concept_name prediction_id w h) (only parsing).

Lemma ai_poll_turn_no_response :
  network w h query = NoResponse ->
  turn = (Raises ConnectionError, [Request query]).
Proof.
  intros E. unfold ai_poll_turn. unfold_py. now rewrite E.
Qed.

Lemma ai_poll_turn_not_200 r :
  network w h query = Responded r ->
  (status_code r =? 200)%Z = false ->
  turn = (Returns Break, [Request query; Print (MsgErrorCheckingStatus (status_code r))]).
Proof.
  intros E C. unfold ai_poll_turn. unfold_py. rewrite E. simpl.
  now rewrite C.
Qed.

Lemma ai_poll_turn_running r status :
  network w h query = Responded r ->
  (status_code r =? 200)%Z = true ->
  getitem_key (json_body r) "status" = Ok status ->
  is_terminal status = false ->
  turn = (Returns Continue, [Request query; Sleep 2]).
Proof.
  intros E C St T. unfold ai_poll_turn. unfold_py. rewrite E. simpl.
  rewrite C. simpl. rewrite St. simpl.
  unfold is_terminal in T. apply orb_false_iff in T as [T1 T2].
  rewrite T1. simpl. now rewrite T2.
Qed.

Lemma ai_poll_turn_failed r status :
  network w h query = Responded r ->
  (status_code r =? 200)%Z = true ->
  getitem_key (json_body r) "status" = Ok status ->
  eq_str status "failed" = true ->
  exists error,
    turn = (Returns Break,
            [Request query; Print (MsgGenerationFailed concept_name error)]).
Proof.
  intros E C St F.
  assert (exists error, dict_get (json_body r) "error" (JStr "Unknown error") = Ok error)
    as [error Er].
  { destruct (json_body r) as [| | | | |fields]; simpl in *; try discriminate.
    destruct (assoc "error" fields); eauto. }
  exists error.
  unfold ai_poll_turn. unfold_py. rewrite E. simpl.
  rewrite C. simpl. rewrite St. simpl.
  assert (eq_str status "succeeded" = false) as T1.
  { destruct status; simpl in *; try discriminate.
    apply String.eqb_eq in F. now subst. }
  rewrite T1. simpl. rewrite F, Er. reflexivity.
Qed.

(** After [succeeded] the turn never asks for another turn. *)
Lemma ai_poll_turn_succeeded r status :
  network w h query = Responded r ->
  (status_code r =? 200)%Z = true ->
  getitem_key (json_body r) "status" = Ok status ->
  eq_str status "succeeded" = true ->
  exists o d,
    turn = (o, Request query :: d)
    /\ status_queries d = 0
    /\ o <> Returns Continue
    /\ o <> Diverges.
Proof.
  intros E C St F.
  unfold ai_poll_turn. unfold_py. rewrite E. simpl.
  rewrite C. simpl. rewrite St. simpl. rewrite F.
  destruct (getitem_key (json_body r) "output") as [output|e]; simpl.
  2:{ eexists. eexists. repeat split; discriminate. }
  destruct (getitem_0 output) as [image_url|e]; simpl.
  2:{ eexists. eexists. repeat split; discriminate. }
  destruct (network w _ (GetUrl image_url)) as [|img]; simpl.
  { eexists. eexists. repeat split; discriminate. }
  destruct (status_code img =? 200)%Z; simpl;
    eexists; eexists; repeat split; discriminate.
Qed.

End AiPollTurn.

(** ** [create_fintech_mobile_icon.py] *)

Lemma fintech_poll_turn_no_response concept_name prediction_id w h :
  network w h (GetPrediction prediction_id) = NoResponse ->
  fintech_poll_turn concept_name prediction_id w h
  = (Raises ConnectionError, [Request (GetPrediction prediction_id)]).
Proof. intros E. unfold fintech_poll_turn. unfold_py. now rewrite E. Qed.

Lemma fintech_poll_turn_running concept_name prediction_id w h r status :
  network w h (GetPrediction prediction_id) = Responded r ->
  getitem_key (json_body r) "status" = Ok status ->
  is_terminal status = false ->
  fintech_poll_turn concept_name prediction_id w h
  = (Returns Continue, [Request (GetPrediction prediction_id); Sleep 2]).
Proof.
  intros E S T. unfold fintech_poll_turn. unfold_py. rewrite E. simpl.
  rewrite S. simpl.
  unfold is_terminal in T. apply orb_false_iff in T as [T1 T2].
  rewrite T1. simpl. now rewrite T2.
Qed.

Lemma fintech_poll_turn_shape concept_name prediction_id w h :
  exists o d,
    fintech_poll_turn concept_name prediction_id w h
      = (o, Request (GetPrediction prediction_id) :: d)
    /\ status_queries d = 0
    /\ submissions d = 0
    /\ o <> Diverges
    /\ files_agree saved_by_turn o d.
Proof.
  unfold fintech_poll_turn. unfold_py.
  destruct (network w h (GetPrediction prediction_id)) as [|r]; simpl.
  { eexists. eexists. repeat split; discriminate. }
  destruct (getitem_key (json_body r) "status") as [status|e]; simpl.
  2:{ eexists. eexists. repeat split; discriminate. }
  destruct (eq_str status "succeeded"); simpl.
  - destruct (getitem_key (json_body r) "output") as [output|e]; simpl.
    2:{ eexists. eexists. repeat split; discriminate. }
    destruct (getitem_0 output) as [url|e]; simpl.
    2:{ eexists. eexists. repeat split; discriminate. }
    destruct (network w _ (GetUrl url)) as [|img]; simpl.
    { eexists. eexists. repeat split; discriminate. }
    eexists. eexists. repeat split; discriminate.
  - destruct (eq_str status "failed"); simpl.
    + destruct (dict_get (json_body r) "error" (JStr "Unknown error")) as [error|e]; simpl;
        eexists; eexists; repeat split; discriminate.
    + eexists. eexists. repeat split; discriminate.
Qed.

Lemma fintech_poll_loop_spec concept_name prediction_id remaining :
  forall w h,
    let run := fintech_poll_loop concept_name prediction_id remaining w h in
    status_queries (snd run) <= remaining
    /\ submissions (snd run) = 0
    /\ fst run <> Diverges
    /\ files_agree (fun v => v) (fst run) (snd run).
Proof.
  induction remaining as [|remaining IH]; intros w h run; subst run.
  - unfold fintech_poll_loop. unfold_py. simpl.
    repeat split; [apply Nat.le_refl | discriminate].
  - rewrite fintech_poll_loop_unfold.
    destruct (fintech_poll_turn_shape concept_name prediction_id w h)
      as (o & d & E & Q & Sb & ND & F).
    rewrite E. clear E.
    specialize (IH w (h ++ Request (GetPrediction prediction_id) :: d)).
    destruct IH as (IH1 & IH2 & IH3 & IH4).
    assert (status_queries (Request (GetPrediction prediction_id) :: d) = 1) as Q1
        by (rewrite status_queries_cons, Q; reflexivity).
    assert (submissions (Request (GetPrediction prediction_id) :: d) = 0) as S1
        by (unfold submissions; rewrite count_cons; exact Sb).
    assert (forall tl, written_files (Request (GetPrediction prediction_id) :: tl)
                       = written_files tl) as W1 by reflexivity.
    assert (forall rest : outcome (option string) * trace,
               status_queries (snd rest) <= remaining ->
               submissions (snd rest) = 0 ->
               files_agree (fun v => v) (fst rest) (snd rest) ->
               written_files d = [] ->
               status_queries ((Request (GetPrediction prediction_id) :: d) ++ snd rest)
                 <= S remaining
               /\ submissions ((Request (GetPrediction prediction_id) :: d) ++ snd rest) = 0
               /\ files_agree (fun v => v) (fst rest)
                    ((Request (GetPrediction prediction_id) :: d) ++ snd rest)) as Go.
    { intros rest R1 R2 R4 Wd.
      rewrite status_queries_app, Q1. unfold submissions in *.
      rewrite count_app, S1, R2. repeat split; [lia|].
      unfold files_agree in *.
      rewrite written_files_app, W1, Wd. exact R4. }
    destruct o as [[| |v]|e|]; cbn [fst snd].
    + destruct (Go _ IH1 IH2 IH4 F) as (G1 & G2 & G3). auto.
    + destruct (Go _ IH1 IH2 IH4 F) as (G1 & G2 & G3). auto.
    + rewrite Q1. repeat split; [lia | exact S1 | discriminate |].
      unfold files_agree in *. simpl in F. rewrite W1. destruct v; exact F.
    + rewrite Q1. repeat split; [lia | exact S1 | discriminate |].
      unfold files_agree in *. rewrite W1. exact F.
    + now contradiction ND.
Qed.

Lemma no_submissions_no_prompts d :
  submissions d = 0 -> submitted_prompts d = [].
Proof.
  rewrite submissions_requests.
  induction d as [|[[x|x|x]| | | |] d IH]; simpl; try discriminate; auto.
Qed.

(** A pipeline of the fintech script always comes back with a file name or
    [None]: it submits exactly its own prompt, polls at most 60 times, and
    no exception leaves it. *)
Lemma generate_fintech_icon_spec concept_name prompt_ w h :
  exists result_ d,
    generate_fintech_icon concept_name prompt_ w h = (Returns result_, d)
    /\ submitted_prompts d = [prompt_]
    /\ status_queries d <= 60
    /\ files_agree (fun v => v) (Returns result_) d.
Proof.
  unfold generate_fintech_icon, try_except.
  set (p := make_payload prompt_ 512 512).
  unfold bind at 1. unfold send at 1.
  destruct (network w h (PostPrediction p)) as [|r]; simpl.
  { eexists. eexists. repeat split. apply Nat.le_0_l. }
  unfold bind at 1. unfold raise_for_status at 1.
  destruct (is_http_error (status_code r)); simpl.
  { eexists. eexists. repeat split. apply Nat.le_0_l. }
  unfold bind at 1.
  destruct (getitem_key (json_body r) "id") as [prediction_id|e]; simpl.
  2:{ eexists. eexists. repeat split. apply Nat.le_0_l. }
  rewrite !app_nil_r.
  do 2 (unfold bind at 1; unfold print at 1, emit at 1).
  match goal with
  | |- context [fintech_poll_loop concept_name prediction_id 60 w ?hh] =>
      destruct (fintech_poll_loop_spec concept_name prediction_id 60 w hh)
        as (L1 & L2 & L3 & L4);
      destruct (fintech_poll_loop concept_name prediction_id 60 w hh) as [[v|e|] d]
  end; cbn [fst snd] in *.
  - exists v. eexists. split; [reflexivity|].
    apply no_submissions_no_prompts in L2.
    repeat split.
    + simpl. now rewrite L2.
    + repeat (rewrite status_queries_app || rewrite status_queries_cons). simpl.
      exact L1.
    + exact L4.
  - exists None. eexists. split; [reflexivity|].
    apply no_submissions_no_prompts in L2.
    repeat split.
    + simpl. rewrite submitted_prompts_app, L2. reflexivity.
    + repeat (rewrite status_queries_app || rewrite status_queries_cons). simpl.
      rewrite Nat.add_0_r. exact L1.
    + simpl. rewrite written_files_app. simpl. rewrite app_nil_r. exact L4.
  - now contradiction L3.
Qed.

Lemma append_if_agrees generated_icons (result_ : option string) d :
  files_agree (fun v => v) (Returns result_) d ->
  append_if generated_icons result_ = generated_icons ++ written_files d
  /\ List.length (written_files d) <= 1.
Proof.
  unfold files_agree, append_if.
  destruct result_ as [filename|].
  - intros [-> NE]. destruct (String.eqb_spec filename "") as [->|_];
      [congruence | simpl; auto].
  - intros ->. rewrite app_nil_r. simpl. auto.
Qed.

Lemma fintech_main_loop_spec items :
  forall results w h,
  exists new d,
    fintech_main_loop items results w h = (Returns (results ++ new), d)
    /\ submitted_prompts d = map snd items
    /\ written_files d = new
    /\ List.length new <= List.length items.
Proof.
  induction items as [|[name prompt_] rest IH]; intros results w h; simpl.
  - exists [], []. rewrite app_nil_r. repeat split. apply Nat.le_refl.
  - destruct (generate_fintech_icon_spec name prompt_ w h) as (result_ & d1 & E1 & P1 & _ & F1).
    rewrite (bind_returns _ _ _ _ _ _ E1).
    destruct (append_if_agrees results result_ d1 F1) as (-> & Len).
    rewrite bind_sleep.
    destruct (IH (results ++ written_files d1) w ((h ++ d1) ++ [Sleep 3]))
      as (new & d2 & E2 & P2 & W2 & L2).
    rewrite E2. cbn [fst snd].
    exists (written_files d1 ++ new), (d1 ++ Sleep 3 :: d2).
    rewrite app_assoc. split; [reflexivity|].
    rewrite submitted_prompts_app, written_files_app, length_app. simpl.
    rewrite P1, P2, W2. repeat split. lia.
Qed.

(** ** [create_ai_trading_icons.py] and [create_professional_fintech_icon.py] *)

Lemma ai_poll_turn_shape s concept_name prediction_id w h :
  exists o d,
    ai_poll_turn s concept_name prediction_id w h
      = (o, Request (GetPrediction prediction_id) :: d)
    /\ status_queries d = 0
    /\ submissions d = 0
    /\ o <> Diverges
    /\ files_agree saved_by_ai_turn o d.
Proof.
  unfold ai_poll_turn. unfold_py.
  destruct (network w h (GetPrediction prediction_id)) as [|r]; simpl.
  { eexists. eexists. repeat split; discriminate. }
  destruct (status_code r =? 200)%Z; simpl.
  2:{ eexists. eexists. repeat split; discriminate. }
  destruct (getitem_key (json_body r) "status") as [status|e]; simpl.
  2:{ eexists. eexists. repeat split; discriminate. }
  destruct (eq_str status "succeeded"); simpl.
  - destruct (getitem_key (json_body r) "output") as [output|e]; simpl.
    2:{ eexists. eexists. repeat split; discriminate. }
    destruct (getitem_0 output) as [url|e]; simpl.
    2:{ eexists. eexists. repeat split; discriminate. }
    destruct (network w _ (GetUrl url)) as [|img]; simpl.
    { eexists. eexists. repeat split; discriminate. }
    destruct (status_code img =? 200)%Z; simpl.
    + eexists. eexists. repeat split; try discriminate.
      destruct s; discriminate.
    + eexists. eexists. repeat split; discriminate.
  - destruct (eq_str status "failed"); simpl.
    + destruct (dict_get (json_body r) "error" (JStr "Unknown error")) as [error|e]; simpl;
        eexists; eexists; repeat split; discriminate.
    + eexists. eexists. repeat split; discriminate.
Qed.

Lemma ai_while_true_spec s concept_name prediction_id fuel :
  forall w h,
    let run := while_true fuel (ai_poll_turn s concept_name prediction_id) w h in
    status_queries (snd run) <= fuel
    /\ submissions (snd run) = 0
    /\ files_agree (fun v => v) (fst run) (snd run).
Proof.
  induction fuel as [|fuel IH]; intros w h run; subst run.
  - unfold while_true, diverge. simpl. repeat split. apply Nat.le_refl.
  - rewrite while_true_unfold.
    destruct (ai_poll_turn_shape s concept_name prediction_id w h)
      as (o & d & E & Q & Sb & ND & F).
    rewrite E. clear E.
    specialize (IH w (h ++ Request (GetPrediction prediction_id) :: d)).
    destruct IH as (IH1 & IH2 & IH4).
    assert (status_queries (Request (GetPrediction prediction_id) :: d) = 1) as Q1
        by (rewrite status_queries_cons, Q; reflexivity).
    assert (submissions (Request (GetPrediction prediction_id) :: d) = 0) as S1
        by (unfold submissions; rewrite count_cons; exact Sb).
    assert (forall tl, written_files (Request (GetPrediction prediction_id) :: tl)
                       = written_files tl) as W1 by reflexivity.
    destruct o as [[| |v]|e|]; cbn [fst snd].
    + rewrite status_queries_app, Q1. unfold submissions in *.
      rewrite count_app, S1, IH2. repeat split; [lia|].
      unfold files_agree in *. simpl in F.
      rewrite written_files_app, W1, F. exact IH4.
    + rewrite Q1. split; [lia | split; [exact S1 |]].
      unfold files_agree in *. rewrite W1. exact F.
    + rewrite Q1. split; [lia | split; [exact S1 |]].
      unfold files_agree in *. rewrite W1. exact F.
    + rewrite Q1. split; [lia | split; [exact S1 |]].
      unfold files_agree in *. rewrite W1. exact F.
    + now contradiction ND.
Qed.

(** A pipeline of the [while True] scripts submits exactly its own prompt.
    No exception leaves it: it comes back with a file name or [None], unless
    the poll loop never ends. *)
Lemma generate_ai_icon_spec s fuel concept_name prompt_ w h :
  exists o d,
    generate_ai_icon s fuel concept_name prompt_ w h = (o, d)
    /\ (forall e, o <> Raises e)
    /\ submitted_prompts d = [prompt_]
    /\ files_agree (fun v => v) o d.
Proof.
  unfold generate_ai_icon.
  set (p := make_payload prompt_ 1024 1024).
  unfold_py.
  destruct (network w h (PostPrediction p)) as [|r]; simpl.
  { eexists. eexists. repeat split. discriminate. }
  destruct (status_code r =? 201)%Z; simpl.
  2:{ eexists. eexists. repeat split. discriminate. }
  destruct (getitem_key (json_body r) "id") as [prediction_id|e]; simpl.
  2:{ eexists. eexists. repeat split. discriminate. }
  rewrite !app_nil_r.
  match goal with
  | |- context [while_true fuel ?body w ?hh] =>
      destruct (ai_while_true_spec s concept_name prediction_id fuel w hh)
        as (_ & L2 & L4);
      destruct (while_true fuel body w hh) as [[v|e|] d]
  end; cbn [fst snd] in *; apply no_submissions_no_prompts in L2; simpl.
  - destruct v as [filename|]; simpl.
    + eexists. eexists. split; [reflexivity|]. split; [discriminate|].
      simpl. rewrite !submitted_prompts_app, L2. split; [reflexivity|].
      rewrite !written_files_app. simpl. rewrite app_nil_r. exact L4.
    + eexists. eexists. split; [reflexivity|]. split; [discriminate|].
      simpl. rewrite !submitted_prompts_app, L2. split; [reflexivity|].
      rewrite !written_files_app. simpl. rewrite app_nil_r. exact L4.
  - eexists. eexists. split; [reflexivity|]. split; [discriminate|].
    simpl. rewrite !submitted_prompts_app, L2. split; [reflexivity|].
    rewrite !written_files_app, L4. reflexivity.
  - eexists. eexists. split; [reflexivity|]. split; [discriminate|].
    simpl. rewrite L2. split; [reflexivity|]. exact L4.
Qed.

Lemma ai_main_loop_spec s fuel items :
  forall generated_icons w h,
  exists o d,
    ai_main_loop s fuel items generated_icons w h = (o, d)
    /\ (forall e, o <> Raises e)
    /\ (forall icons, o = Returns icons ->
        submitted_prompts d = map snd items
        /\ icons = generated_icons ++ written_files d
        /\ List.length (written_files d) <= List.length items).
Proof.
  induction items as [|[concept prompt_] rest IH]; intros generated_icons w h; simpl.
  - eexists. eexists. split; [reflexivity|]. split; [discriminate|].
    intros icons [= <-]. rewrite app_nil_r. repeat split. apply Nat.le_refl.
  - unfold bind at 1. unfold print at 1, emit at 1.
    unfold bind at 1. unfold print at 1, emit at 1.
    unfold bind at 1.
    destruct (generate_ai_icon_spec s fuel concept prompt_ w
                ((h ++ [Print (MsgGenerating concept)]) ++ [Print (MsgPrompt prompt_)]))
      as (o1 & d1 & E1 & NR1 & P1 & F1).
    rewrite E1.
    destruct o1 as [result_|e|].
    + destruct (append_if_agrees generated_icons result_ d1 F1) as (-> & Len).
      unfold bind at 1. unfold print at 1, emit at 1.
      unfold bind at 1. unfold sleep at 1, emit at 1.
      match goal with
      | |- context [ai_main_loop s fuel rest ?acc w ?hh] =>
          destruct (IH acc w hh) as (o2 & d2 & E2 & NR2 & R2); rewrite E2
      end.
      eexists. eexists. split; [reflexivity|]. split; [exact NR2|].
      intros icons ->. destruct (R2 icons eq_refl) as (P2 & I2 & L2).
      simpl. rewrite !submitted_prompts_app, !written_files_app, !length_app. simpl.
      rewrite P1, P2, I2, <- app_assoc. repeat split. lia.
    + exfalso. now apply (NR1 e).
    + eexists. eexists. split; [reflexivity|]. split; discriminate.
Qed.

(** ** Pipelines of the class based generators *)

Lemma poll_loop_files self prediction_id filename_prefix max_attempts remaining :
  forall attempt w h,
    let run := poll_loop self prediction_id filename_prefix max_attempts attempt remaining w h in
    written_files (snd run) = files_of (fst run)
    /\ (forall e, fst run = Raises e -> is_RequestException e = false)
    /\ (conforms w -> forall e, fst run <> Raises e).
Proof.
  induction remaining as [|remaining IH]; intros attempt w h run; subst run.
  - simpl. repeat split; discriminate.
  - rewrite poll_loop_unfold.
    destruct (poll_attempt_shape self prediction_id filename_prefix max_attempts attempt w h)
      as (o & d & E & _ & _ & ND & NB & RE & _ & _ & W & WF).
    rewrite E.
    specialize (IH (S attempt) w (h ++ Request (GetPrediction prediction_id) :: d)).
    destruct IH as (IH1 & IH2 & IH3).
    destruct o as [[| |v]|e|]; cbn [fst snd]; try congruence.
    + rewrite written_files_app. simpl. rewrite W, IH1. auto.
    + simpl. repeat split; try discriminate. destruct v; assumption.
    + simpl. repeat split; [assumption | intros e' [= <-]; now apply RE |].
      intros [_ C] e' _. specialize (WF e eq_refl). now rewrite C in WF.
Qed.

Lemma print_started_returns self filename_prefix prediction_id w h :
  exists msgs,
    print_started self filename_prefix prediction_id w h = (Returns tt, msgs)
    /\ requests_of msgs = [] /\ written_files msgs = [].
Proof.
  unfold print_started. unfold_py. destruct self; eexists; repeat split.
Qed.

Lemma submitted_prompts_print m d :
  submitted_prompts (Print m :: d) = submitted_prompts d.
Proof. reflexivity. Qed.

Lemma no_requests_no_prompts d : requests_of d = [] -> submitted_prompts d = [].
Proof.
  induction d as [|[x| | | |] d IH]; simpl; try discriminate; auto.
Qed.

Lemma getitem_key_err d key e :
  getitem_key d key = Err e -> is_RequestException e = false.
Proof.
  destruct d as [| | | | |fields]; simpl;
    try (intros [= <-]; reflexivity).
  destruct (assoc key fields); [discriminate | intros [= <-]; reflexivity].
Qed.

Lemma make_request_spec self payload_ filename_prefix w h :
  exists o d,
    _make_request self payload_ filename_prefix w h = (o, d)
    /\ o <> Diverges
    /\ (forall e, o = Raises e -> is_RequestException e = false)
    /\ submitted_prompts d = [prompt payload_]
    /\ status_queries d <= default_max_attempts
    /\ written_files d = files_of o
    /\ (conforms w -> forall e, o <> Raises e).
Proof.
  unfold _make_request, submit, _poll_prediction.
  unfold try_except, bind, send, raise_for_status, lift, ret, raise.
  destruct (network w h (PostPrediction payload_)) as [|r] eqn:N; simpl.
  { unfold_py. simpl. eexists. eexists.
    repeat split; try discriminate. apply Nat.le_0_l. }
  destruct (is_http_error (status_code r)) eqn:C; simpl.
  { unfold_py. simpl. eexists. eexists.
    repeat split; try discriminate. apply Nat.le_0_l. }
  destruct (getitem_key (json_body r) "id") as [prediction_id|e] eqn:G; simpl.
  2:{ assert (is_RequestException e = false) as NRE
          by exact (getitem_key_err _ _ _ G).
      rewrite NRE. eexists. eexists.
      repeat split; try discriminate.
      - congruence.
      - apply Nat.le_0_l.
      - intros [Cf _] e'. specialize (Cf h payload_). rewrite N in Cf. simpl in Cf.
        rewrite C, G in Cf. discriminate. }
  rewrite ?app_nil_r.
  destruct (print_started_returns self filename_prefix prediction_id w
              (h ++ [Request (PostPrediction payload_)])) as (msgs & -> & Rq & Wm).
  match goal with
  | |- context [poll_loop self prediction_id filename_prefix ?m 0 ?m w ?hh] =>
      destruct (poll_loop_bound self prediction_id filename_prefix m m 0 w hh)
        as (B1 & B2 & B3);
      destruct (poll_loop_files self prediction_id filename_prefix m m 0 w hh)
        as (F1 & F2 & F3);
      destruct (poll_loop self prediction_id filename_prefix m 0 m w hh)
        as [[v|e|] d]
  end; cbn [fst snd] in *; apply no_submissions_no_prompts in B2.
  - eexists. eexists. split; [reflexivity|].
    split; [discriminate|]. split; [discriminate|].
    simpl. rewrite !submitted_prompts_app, B2, app_nil_r, (no_requests_no_prompts _ Rq).
    split; [reflexivity|].
    rewrite status_queries_cons, status_queries_app. simpl.
    rewrite (status_queries_requests msgs), Rq.
    split; [exact B1|].
    rewrite written_files_app, Wm. split; [exact F1 | discriminate].
  - rewrite (F2 e eq_refl). eexists. eexists. split; [reflexivity|].
    split; [discriminate|]. split; [intros e' [= <-]; now apply F2|].
    simpl. rewrite !submitted_prompts_app, B2, app_nil_r, (no_requests_no_prompts _ Rq).
    split; [reflexivity|].
    rewrite status_queries_cons, status_queries_app. simpl.
    rewrite (status_queries_requests msgs), Rq.
    split; [exact B1|].
    rewrite written_files_app, Wm. split; [exact F1|].
    intros Cf e' _. now apply (F3 Cf e).
  - now contradiction B3.
Qed.

Lemma extend_if_files icons_generated result_ :
  extend_if icons_generated result_ = icons_generated ++ files_of (Returns result_).
Proof.
  destruct result_ as [[|f fs]|]; simpl; now rewrite ?app_nil_r.
Qed.

Lemma submitted_prompts_length d :
  List.length (submitted_prompts d) = submissions d.
Proof.
  rewrite submissions_requests.
  induction d as [|[[x|x|x]| | | |] d IH]; simpl; auto.
Qed.

Lemma generate_ai_analytics_icon_spec style variation payload_ w h :
  analytics_payload style variation = Ok payload_ ->
  exists o d,
    generate_ai_analytics_icon style variation w h = (o, d)
    /\ o <> Diverges
    /\ submissions d = 1
    /\ written_files d = files_of o
    /\ (conforms w -> forall e, o <> Raises e).
Proof.
  intros E. unfold generate_ai_analytics_icon. rewrite E.
  unfold bind, lift, ret. simpl.
  match goal with
  | |- context [_make_request ?g ?p ?f w ?hh] =>
      destruct (make_request_spec g p f w hh) as (o & d & R & ND & _ & P & _ & F & C);
      rewrite R
  end.
  exists o, d. split; [reflexivity|].
  rewrite <- submitted_prompts_length, P. auto.
Qed.

Lemma variations_loop_spec style range :
  (forall i, In i range -> exists payload_, analytics_payload style i = Ok payload_) ->
  forall icons_generated w h,
  exists o d,
    variations_loop style range icons_generated w h = (o, d)
    /\ o <> Diverges
    /\ (forall icons, o = Returns icons ->
        submissions d = List.length range
        /\ icons = icons_generated ++ written_files d)
    /\ (conforms w -> forall e, o <> Raises e).
Proof.
  induction range as [|i rest IH]; intros OK icons_generated w h; simpl.
  - eexists. eexists. split; [reflexivity|].
    split; [discriminate|]. split; [|discriminate].
    intros icons [= <-]. split; [reflexivity | now rewrite app_nil_r].
  - destruct (OK i (or_introl eq_refl)) as [payload_ Ep].
    destruct (generate_ai_analytics_icon_spec style i payload_ w h Ep)
      as (o1 & d1 & E1 & ND1 & S1 & F1 & C1).
    unfold bind at 1. rewrite E1.
    destruct o1 as [result_|e|]; [ | | congruence].
    + rewrite extend_if_files, <- F1.
      unfold bind at 1. unfold sleep at 1, emit at 1.
      match goal with
      | |- context [variations_loop style rest ?acc w ?hh] =>
          destruct (IH (fun j Hj => OK j (or_intror Hj)) acc w hh)
            as (o2 & d2 & E2 & ND2 & R2 & C2); rewrite E2
      end.
      eexists. eexists. split; [reflexivity|].
      split; [exact ND2|]. split; [|exact C2].
      intros icons Hi. destruct (R2 icons Hi) as (S2 & ->).
      unfold submissions in *.
      rewrite !count_app, S1, S2, !written_files_app. simpl.
      now rewrite app_assoc.
    + eexists. eexists. split; [reflexivity|]. repeat split; try discriminate.
      intros Cf e' _. now apply (C1 Cf e).
Qed.

(** The batch of [PremiumIconGenerator]: when it comes back, seven
    requests were submitted and the list it returns holds the files written;
    with a service that respects its interface it always comes back. *)
Lemma generate_multiple_variations_spec w h :
  exists o d,
    generate_multiple_variations w h = (o, d)
    /\ o <> Diverges
    /\ (forall icons, o = Returns icons -> submissions d = 7 /\ icons = written_files d)
    /\ (conforms w -> exists icons, o = Returns icons).
Proof.
  assert (forall style range,
             In style ["modern"; "luxury"; "tech"] ->
             incl range [1; 2; 3]%Z ->
             forall i, In i range ->
               exists payload_, analytics_payload style i = Ok payload_) as OK.
  { intros style range Hs Hr i Hi. apply Hr in Hi.
    simpl in Hs, Hi.
    destruct Hs as [<-|[<-|[<-|[]]]]; destruct Hi as [<-|[<-|[<-|[]]]];
      eexists; reflexivity. }
  unfold generate_multiple_variations.
  do 3 (unfold bind at 1; unfold print at 1, emit at 1).
  unfold bind at 1.
  match goal with
  | |- context [variations_loop "modern" ?r ?acc w ?hh] =>
      destruct (variations_loop_spec "modern" r
                  (OK "modern" r ltac:(simpl; auto) ltac:(intros x Hx; simpl in *; tauto))
                  acc w hh) as (o1 & d1 & E1 & ND1 & R1 & C1); rewrite E1
  end.
  destruct o1 as [icons1|e|]; [ | | congruence].
  2:{ eexists. eexists. split; [reflexivity|]. repeat split; try discriminate.
      intros Cf. exfalso. now apply (C1 Cf e). }
  destruct (R1 icons1 eq_refl) as (S1 & I1). simpl in I1.
  unfold bind at 1; unfold print at 1, emit at 1. unfold bind at 1.
  match goal with
  | |- context [variations_loop "luxury" ?r ?acc w ?hh] =>
      destruct (variations_loop_spec "luxury" r
                  (OK "luxury" r ltac:(simpl; auto) ltac:(intros x Hx; simpl in *; tauto))
                  acc w hh) as (o2 & d2 & E2 & ND2 & R2 & C2); rewrite E2
  end.
  destruct o2 as [icons2|e|]; [ | | congruence].
  2:{ eexists. eexists. split; [reflexivity|]. repeat split; try discriminate.
      intros Cf. exfalso. now apply (C2 Cf e). }
  destruct (R2 icons2 eq_refl) as (S2 & I2).
  unfold bind at 1; unfold print at 1, emit at 1. unfold bind at 1.
  match goal with
  | |- context [variations_loop "tech" ?r ?acc w ?hh] =>
      destruct (variations_loop_spec "tech" r
                  (OK "tech" r ltac:(simpl; auto) ltac:(intros x Hx; simpl in *; tauto))
                  acc w hh) as (o3 & d3 & E3 & ND3 & R3 & C3); rewrite E3
  end.
  destruct o3 as [icons3|e|]; [ | | congruence].
  2:{ eexists. eexists. split; [reflexivity|]. repeat split; try discriminate.
      intros Cf. exfalso. now apply (C3 Cf e). }
  destruct (R3 icons3 eq_refl) as (S3 & I3).
  unfold ret. eexists. eexists. split; [reflexivity|].
  split; [discriminate|]. split; [|eauto].
  intros icons [= <-]. split.
  - unfold submissions in *.
    repeat (rewrite count_app || rewrite count_cons). simpl.
    rewrite S1, S2, S3. reflexivity.
  - repeat (rewrite written_files_app; simpl).
    rewrite app_nil_r. subst. now rewrite app_assoc.
Qed.

(** ** The batches of the one-shot scripts *)

Lemma written_files_print m d : written_files (Print m :: d) = written_files d.
Proof. reflexivity. Qed.

Lemma print_items_spec icons w h :
  exists msgs,
    print_items icons w h = (Returns tt, msgs)
    /\ requests_of msgs = [] /\ written_files msgs = [].
Proof.
  revert h. induction icons as [|icon rest IH]; intros h; simpl.
  - exists []. repeat split.
  - rewrite bind_print. destruct (IH (h ++ [Print (MsgItem icon)])) as (msgs & -> & Rq & Wm).
    exists (Print (MsgItem icon) :: msgs). auto.
Qed.

Lemma fintech_main_spec w h :
  exists results d,
    fintech_main w h = (Returns results, d)
    /\ submitted_prompts d = map snd concepts
    /\ results = written_files d
    /\ List.length results <= List.length concepts.
Proof.
  unfold fintech_main. rewrite !bind_print.
  match goal with
  | |- context [bind (fintech_main_loop ?items []) _ w ?hh] =>
      destruct (fintech_main_loop_spec items [] w hh) as (new & d & E & P & W & L)
  end.
  rewrite (bind_returns _ _ _ _ _ _ E). rewrite !bind_print. unfold ret.
  cbn [fst snd].
  eexists. eexists. split; [reflexivity|].
  rewrite !submitted_prompts_print, !written_files_print.
  rewrite submitted_prompts_app, written_files_app, P, W. simpl.
  rewrite !app_nil_r. auto.
Qed.

Lemma ai_main_spec s fuel w h :
  exists o d,
    ai_main s fuel w h = (o, d)
    /\ (forall e, o <> Raises e)
    /\ (forall icons, o = Returns icons ->
        submitted_prompts d = map snd (script_concepts s)
        /\ icons = written_files d
        /\ List.length icons <= List.length (script_concepts s)).
Proof.
  unfold ai_main. rewrite !bind_print.
  match goal with
  | |- context [bind (ai_main_loop s fuel ?items []) _ w ?hh] =>
      destruct (ai_main_loop_spec s fuel items [] w hh) as (o & d & E & NR & R)
  end.
  destruct o as [icons|e|].
  - rewrite (bind_returns _ _ _ _ _ _ E).
    destruct (R icons eq_refl) as (P & I & L). simpl in I.
    rewrite !bind_print.
    assert (forall hh,
               exists msgs,
                 (if match icons with [] => false | _ => true end
                  then print (MsgText (your_icons s)) ;; print_items icons
                  else ret tt) w hh = (Returns tt, msgs)
                 /\ requests_of msgs = [] /\ written_files msgs = []) as PI.
    { intros hh. destruct icons as [|i0 icons0].
      - exists []. repeat split.
      - rewrite bind_print.
        destruct (print_items_spec (i0 :: icons0) w (hh ++ [Print (MsgText (your_icons s))]))
          as (msgs & -> & Rq & Wm).
        exists (Print (MsgText (your_icons s)) :: msgs). auto. }
    match goal with
    | |- context [bind (if _ then _ else _) _ w ?hh] =>
        destruct (PI hh) as (msgs & PIe & Rq & Wm);
        rewrite (bind_returns _ _ _ _ _ _ PIe)
    end.
    unfold ret. cbn [fst snd].
    eexists. eexists. split; [reflexivity|].
    split; [discriminate|]. intros icons' [= <-].
    rewrite !submitted_prompts_print, !written_files_print.
    rewrite submitted_prompts_app, written_files_app, P.
    rewrite !submitted_prompts_print, !written_files_print.
    rewrite submitted_prompts_app, written_files_app.
    rewrite (no_requests_no_prompts _ Rq), Wm. simpl.
    rewrite !app_nil_r. rewrite I at 2. auto.
  - exfalso. now apply (NR e).
  - rewrite (bind_diverges _ _ _ _ _ E). cbn [fst snd].
    eexists. eexists. split; [reflexivity|]. split; discriminate.
Qed.

(** ** Fuel *)

(** Fuel only decides how far a [while True] loop is followed: a run that
    came to an end keeps its outcome and its effects with more fuel. *)
Lemma while_true_more_fuel {A} (body : M (control A)) fuel :
  forall w h o d k,
    while_true fuel body w h = (o, d) ->
    o <> Diverges ->
    while_true (fuel + k) body w h = (o, d).
Proof.
  induction fuel as [|fuel IH]; intros w h o d k E ND.
  - unfold while_true, diverge in E. injection E as <- _. now contradiction ND.
  - rewrite Nat.add_succ_l, while_true_unfold. rewrite while_true_unfold in E.
    destruct (body w h) as [[[| |v]|e|] d1]; try exact E.
    destruct (while_true fuel body w (h ++ d1)) as [o2 d2] eqn:E2.
    cbn [fst snd] in E. injection E as <- <-.
    now rewrite (IH _ _ _ _ k E2 ND).
Qed.

Lemma generate_ai_icon_more_fuel s fuel concept_name prompt_ w h o d k :
  generate_ai_icon s fuel concept_name prompt_ w h = (o, d) ->
  o <> Diverges ->
  generate_ai_icon s (fuel + k) concept_name prompt_ w h = (o, d).
Proof.
  unfold generate_ai_icon.
  set (p := make_payload prompt_ 1024 1024).
  unfold_py.
  destruct (network w h (PostPrediction p)) as [|r]; simpl; [auto|].
  destruct (status_code r =? 201)%Z; simpl; [|auto].
  destruct (getitem_key (json_body r) "id") as [prediction_id|e]; simpl; [|auto].
  rewrite !app_nil_r.
  match goal with
  | |- context [while_true fuel ?body w ?hh] =>
      destruct (while_true fuel body w hh) as [o1 d1] eqn:E1;
      pose proof (while_true_more_fuel body fuel w hh o1 d1 k E1) as More
  end.
  destruct o1 as [v|e|].
  - rewrite More by discriminate. auto.
  - rewrite More by discriminate. auto.
  - simpl. intros [= <- <-] ND. now contradiction ND.
Qed.

Lemma ai_main_loop_more_fuel s fuel k items :
  forall generated_icons w h o d,
    ai_main_loop s fuel items generated_icons w h = (o, d) ->
    o <> Diverges ->
    ai_main_loop s (fuel + k) items generated_icons w h = (o, d).
Proof.
  induction items as [|[concept prompt_] rest IH]; intros generated_icons w h o d E ND;
    simpl in *; [exact E|].
  rewrite !bind_print in *. cbn [fst snd] in *.
  match goal with
  | _ : context [bind (generate_ai_icon s fuel concept prompt_) _ w ?hh] |- _ =>
      destruct (generate_ai_icon s fuel concept prompt_ w hh) as [o1 d1] eqn:E1;
      pose proof (generate_ai_icon_more_fuel s fuel concept prompt_ w hh o1 d1 k E1) as More
  end.
  destruct o1 as [result_|e|].
  - rewrite (bind_returns _ _ _ _ _ _ E1) in E.
    rewrite (bind_returns _ _ _ _ _ _ (More ltac:(discriminate))).
    rewrite !bind_print, !bind_sleep in *. cbn [fst snd] in *.
    match goal with
    | _ : context [ai_main_loop s fuel rest ?acc w ?hh] |- _ =>
        destruct (ai_main_loop s fuel rest acc w hh) as [o2 d2] eqn:E2;
        rewrite (IH acc w hh o2 d2 E2)
    end.
    + exact E.
    + cbn [fst snd] in E. injection E as <- _. exact ND.
  - rewrite (bind_raises _ _ _ _ _ _ E1) in E.
    rewrite (bind_raises _ _ _ _ _ _ (More ltac:(discriminate))). exact E.
  - rewrite (bind_diverges _ _ _ _ _ E1) in E. cbn [fst snd] in E.
    injection E as <- _. now contradiction ND.
Qed.

Lemma ai_main_more_fuel s fuel k w h o d :
  ai_main s fuel w h = (o, d) ->
  o <> Diverges ->
  ai_main s (fuel + k) w h = (o, d).
Proof.
  unfold ai_main. rewrite !bind_print. cbn [fst snd].
  match goal with
  | |- context [bind (ai_main_loop s fuel ?items []) _ w ?hh] =>
      destruct (ai_main_loop s fuel items [] w hh) as [o1 d1] eqn:E1;
      pose proof (ai_main_loop_more_fuel s fuel k items [] w hh o1 d1 E1) as More
  end.
  destruct o1 as [icons|e|].
  - rewrite (bind_returns _ _ _ _ _ _ E1).
    rewrite (bind_returns _ _ _ _ _ _ (More ltac:(discriminate))). auto.
  - rewrite (bind_raises _ _ _ _ _ _ E1).
    rewrite (bind_raises _ _ _ _ _ _ (More ltac:(discriminate))). auto.
  - rewrite (bind_diverges _ _ _ _ _ E1). cbn [fst snd].
    intros [= <- _] ND. now contradiction ND.
Qed.

(** ** Exhausting the attempts *)


(** * The claims of the specification *)

(** ** C1: the number of status queries *)

(** C1, as stated, fails on the [while True] poll loop of
    [generate_ai_icon]: against a service that keeps answering [processing]
    the loop has sent 61 status queries, more than the 60 of the claim, and
    is still running. *)
Lemma unbounded_poll_counterexample :
  let run := generate_ai_icon AiTradingIcons 61 "green_blue_glow" "x" always_processing [] in
  fst run = Diverges
  /\ status_queries (snd run) = 61
  /\ default_max_attempts < status_queries (snd run).
Proof. vm_compute. split; [reflexivity | split; [reflexivity | apply le_n]]. Qed.

(** C1 (amended).  [_poll_prediction] sends at most [max_attempts] status
    queries, and after a status query that was answered with a terminal
    status ([succeeded] or [failed]) it sends no further status query.  The
    [while True] loop of [generate_ai_icon] / [generate_professional_icon]
    also stops at the first terminal status, but it has no attempt bound:
    after a 200 reply with any other status it sleeps and queries again. *)
Theorem poll_bounded_and_stops_at_terminal :
  (forall self prediction_id filename_prefix max_attempts w h,
      status_queries (snd (_poll_prediction self prediction_id filename_prefix max_attempts w h))
      <= max_attempts)
  /\ (forall self prediction_id filename_prefix max_attempts w h d1 id d2 s,
         snd (_poll_prediction self prediction_id filename_prefix max_attempts w h)
           = d1 ++ Request (GetPrediction id) :: d2 ->
         reported_status (network w (h ++ d1) (GetPrediction id)) = Some s ->
         is_terminal s = true ->
         status_queries d2 = 0)
  /\ (forall s concept_name prediction_id fuel w h r status,
         network w h (GetPrediction prediction_id) = Responded r ->
         status_code r = 200%Z ->
         getitem_key (json_body r) "status" = Ok status ->
         is_terminal status = true ->
         let run := while_true (S fuel) (ai_poll_turn s concept_name prediction_id) w h in
         status_queries (snd run) = 1 /\ fst run <> Diverges)
  /\ (forall s concept_name prediction_id fuel w h r status,
         network w h (GetPrediction prediction_id) = Responded r ->
         status_code r = 200%Z ->
         getitem_key (json_body r) "status" = Ok status ->
         is_terminal status = false ->
         let d := [Request (GetPrediction prediction_id); Sleep 2] in
         let rest := while_true fuel (ai_poll_turn s concept_name prediction_id) w (h ++ d) in
         while_true (S fuel) (ai_poll_turn s concept_name prediction_id) w h
         = (fst rest, d ++ snd rest)).
Proof.
  split; [|split; [|split]].
  - intros. unfold _poll_prediction. apply poll_loop_bound.
  - intros self prediction_id filename_prefix max_attempts w h d1 id d2 s.
    unfold _poll_prediction. apply poll_loop_stops.
  - intros s concept_name prediction_id fuel w h r status N C St T run. subst run.
    assert ((status_code r =? 200)%Z = true) as C' by now apply Z.eqb_eq.
    rewrite while_true_unfold.
    unfold is_terminal in T. apply orb_true_iff in T as [T|T].
    + destruct (ai_poll_turn_succeeded s concept_name prediction_id w h r status N C' St T)
        as (o & d & E & Q & NC & ND).
      rewrite E.
      destruct o as [[| |v]|e|]; cbn [fst snd]; try congruence;
        rewrite status_queries_cons, Q; (split; [reflexivity | discriminate]).
    + destruct (ai_poll_turn_failed s concept_name prediction_id w h r status N C' St T)
        as (error & E).
      rewrite E. cbn [fst snd]. split; [reflexivity | discriminate].
  - intros s concept_name prediction_id fuel w h r status N C St T d rest.
    subst d rest.
    assert ((status_code r =? 200)%Z = true) as C' by now apply Z.eqb_eq.
    rewrite while_true_unfold.
    now rewrite (ai_poll_turn_running s concept_name prediction_id w h r status N C' St T).
Qed.

(** C1, at concrete inputs: the poll sends three status queries, the third
    is answered with [succeeded] and no status query is among the events
    after it; a 200 reply with status [processing] makes the [while True]
    loop query again. *)
Lemma poll_bounded_and_stops_at_terminal_witness :
  let w := scripted [status_reply "processing"; status_reply "processing"]
             (succeeded_reply ["https://cdn/out.png"]) (image_reply "PNG") in
  let run := _poll_prediction PremiumIconGenerator (JStr "p1") "job" 60 w [] in
  status_queries (snd run) <= 60
  /\ nth_error (snd run) 6 = Some (Request (GetPrediction (JStr "p1")))
  /\ status_queries (skipn 7 (snd run)) = 0
  /\ while_true 2 (ai_poll_turn AiTradingIcons "c" (JStr "p1")) always_processing []
     = (Diverges, [Request (GetPrediction (JStr "p1")); Sleep 2;
                   Request (GetPrediction (JStr "p1")); Sleep 2]).
Proof.
  intros w run.
  destruct poll_bounded_and_stops_at_terminal as (Bound & Stop & _ & Again).
  split; [|split; [|split]].
  - apply Bound.
  - reflexivity.
  - apply (Stop PremiumIconGenerator (JStr "p1") "job" 60 w []
             (firstn 6 (snd run)) (JStr "p1") (skipn 7 (snd run)) (JStr "succeeded"));
      reflexivity.
  - rewrite (Again AiTradingIcons "c" (JStr "p1") 1 always_processing []
               (mkResponse 200 "OK" "" (JObj [("status", JStr "processing")]))
               (JStr "processing") eq_refl eq_refl eq_refl eq_refl).
    reflexivity.
Defined.

(** ** C2: submission *)

(** C2, as stated, fails: after a 401 response [_make_request] returns the
    bare [None] and prints the status line of the error; two responses that
    differ only in their body give the same result and the same output, so
    nothing the caller gets carries the response body. *)
Lemma submission_error_drops_body :
  let p := make_payload "x" 512 128 in
  _make_request PremiumTradingAssetsGenerator p "button" (unauthorized "invalid token") []
    = (Returns None,
       [Request (PostPrediction p);
        Print (MsgApiRequestFailed (HttpErrorText 401 "Unauthorized"))])
  /\ _make_request PremiumTradingAssetsGenerator p "button" (unauthorized "quota exceeded") []
     = _make_request PremiumTradingAssetsGenerator p "button" (unauthorized "invalid token") []
  /\ "quota exceeded" <> "invalid token".
Proof. vm_compute. repeat split. discriminate. Qed.

(** C2 (amended).  The submission of [_make_request] yields a prediction id
    exactly when a response arrives whose status code is outside 400..599
    and whose body holds an [id]; [generate_ai_icon] goes on to poll only
    after status 201.  After a 4xx/5xx response [_make_request] prints the
    status code and reason phrase and returns [None]; after any status
    other than 201 [generate_ai_icon] returns [None] without a message.
    The response body is kept in neither case. *)
Theorem submission_outcomes :
  (forall payload_ w h prediction_id d,
      submit payload_ w h = (Returns prediction_id, d)
      <-> (exists r,
              network w h (PostPrediction payload_) = Responded r
              /\ is_http_error (status_code r) = false
              /\ getitem_key (json_body r) "id" = Ok prediction_id
              /\ d = [Request (PostPrediction payload_)]))
  /\ (forall self payload_ filename_prefix w h r,
         network w h (PostPrediction payload_) = Responded r ->
         is_http_error (status_code r) = true ->
         _make_request self payload_ filename_prefix w h
         = (Returns None,
            [Request (PostPrediction payload_);
             Print (MsgApiRequestFailed (HttpErrorText (status_code r) (reason r)))]))
  /\ (forall s fuel concept_name prompt_ w h r,
         network w h (PostPrediction (make_payload prompt_ 1024 1024)) = Responded r ->
         status_code r <> 201%Z ->
         generate_ai_icon s fuel concept_name prompt_ w h
         = (Returns None, [Request (PostPrediction (make_payload prompt_ 1024 1024))])).
Proof.
  split; [|split].
  - intros payload_ w h prediction_id d. unfold submit. unfold_py. split.
    + destruct (network w h (PostPrediction payload_)) as [|r]; simpl; [discriminate|].
      destruct (is_http_error (status_code r)) eqn:C; simpl; [discriminate|].
      destruct (getitem_key (json_body r) "id") as [v|e] eqn:G; simpl; [|discriminate].
      intros [= <- <-]. exists r. auto.
    + intros (r & -> & C & G & ->). simpl.
      rewrite C. simpl. now rewrite G.
  - intros self payload_ filename_prefix w h r N C.
    unfold _make_request, submit. unfold_py. rewrite N. simpl.
    now rewrite C.
  - intros s fuel concept_name prompt_ w h r N C.
    unfold generate_ai_icon. unfold_py. rewrite N. simpl.
    apply Z.eqb_neq in C. now rewrite C.
Qed.

Lemma submission_outcomes_witness :
  let p := make_payload "x" 512 128 in
  (exists r,
      network always_processing [] (PostPrediction p) = Responded r
      /\ is_http_error (status_code r) = false
      /\ getitem_key (json_body r) "id" = Ok (JStr "p1")
      /\ [Request (PostPrediction p)] = [Request (PostPrediction p)])
  /\ _make_request StunningIconGenerator p "bull_crystal" (unauthorized "invalid token") []
     = (Returns None,
        [Request (PostPrediction p);
         Print (MsgApiRequestFailed (HttpErrorText 401 "Unauthorized"))])
  /\ generate_ai_icon AiTradingIcons 5 "neon_green" "x" (unauthorized "invalid token") []
     = (Returns None, [Request (PostPrediction (make_payload "x" 1024 1024))]).
Proof.
  intros p.
  destruct submission_outcomes as (Handle & Refused & Not201).
  split; [|split].
  - apply (Handle p always_processing [] (JStr "p1") [Request (PostPrediction p)]).
    reflexivity.
  - apply (Refused StunningIconGenerator p "bull_crystal" (unauthorized "invalid token") []
             (mkResponse 401 "Unauthorized" "invalid token" JNull)); reflexivity.
  - apply (Not201 AiTradingIcons 5 "neon_green" "x" (unauthorized "invalid token") []
             (mkResponse 401 "Unauthorized" "invalid token" JNull));
      [reflexivity | discriminate].
Defined.

(** ** C3: timeout and reported failure *)




(** ** C4: transport errors during the poll *)

(** C4, as stated, fails on [generate_fintech_icon]: one transport error
    during the first status query ends the poll, although the job would
    have been reported as succeeded by the next query. *)
Lemma transport_error_ends_fintech_poll :
  let run := generate_fintech_icon "trading_bull_icon" "x" one_blip [] in
  fst run = Returns None
  /\ status_queries (snd run) = 1
  /\ written_files (snd run) = []
  /\ fst (_make_request PremiumIconGenerator (make_payload "x" 512 512) "icon" one_blip [])
     = Returns (Some ["generated_icons/icon_20250101_120000.png"]).
Proof. vm_compute. repeat split. Qed.

(** C4 (amended).  In [_poll_prediction] a transport error during an
    attempt is caught: the poller prints it, sleeps 2 seconds and goes on
    with the next attempt, one attempt of the budget being spent.  The
    one-shot scripts do not retry: in [generate_fintech_icon] and in the
    [while True] loop of [generate_ai_icon] the exception leaves the poll
    loop, and the [while True] loop also ends on any response whose status
    code is not 200. *)
Theorem transport_error_during_poll :
  (forall self prediction_id filename_prefix max_attempts attempt remaining w h,
      network w h (GetPrediction prediction_id) = NoResponse ->
      let d := [Request (GetPrediction prediction_id);
                Print (MsgPollingError filename_prefix ConnectionErrorText);
                Sleep 2] in
      let rest := poll_loop self prediction_id filename_prefix max_attempts (S attempt)
                    remaining w (h ++ d) in
      poll_loop self prediction_id filename_prefix max_attempts attempt (S remaining) w h
      = (fst rest, d ++ snd rest))
  /\ (forall concept_name prediction_id remaining w h,
         network w h (GetPrediction prediction_id) = NoResponse ->
         fintech_poll_loop concept_name prediction_id (S remaining) w h
         = (Raises ConnectionError, [Request (GetPrediction prediction_id)]))
  /\ (forall s concept_name prediction_id fuel w h,
         network w h (GetPrediction prediction_id) = NoResponse ->
         while_true (S fuel) (ai_poll_turn s concept_name prediction_id) w h
         = (Raises ConnectionError, [Request (GetPrediction prediction_id)]))
  /\ (forall s concept_name prediction_id fuel w h r,
         network w h (GetPrediction prediction_id) = Responded r ->
         status_code r <> 200%Z ->
         while_true (S fuel) (ai_poll_turn s concept_name prediction_id) w h
         = (Returns None,
            [Request (GetPrediction prediction_id);
             Print (MsgErrorCheckingStatus (status_code r))])).
Proof.
  split; [|split; [|split]].
  - intros self prediction_id filename_prefix max_attempts attempt remaining w h N d rest.
    subst d rest. rewrite poll_loop_unfold.
    now rewrite (poll_attempt_no_response self prediction_id filename_prefix max_attempts
                   attempt w h N).
  - intros concept_name prediction_id remaining w h N.
    rewrite fintech_poll_loop_unfold.
    now rewrite (fintech_poll_turn_no_response concept_name prediction_id w h N).
  - intros s concept_name prediction_id fuel w h N.
    rewrite while_true_unfold.
    now rewrite (ai_poll_turn_no_response s concept_name prediction_id w h N).
  - intros s concept_name prediction_id fuel w h r N C.
    rewrite while_true_unfold. apply Z.eqb_neq in C.
    now rewrite (ai_poll_turn_not_200 s concept_name prediction_id w h r N C).
Qed.

Lemma transport_error_during_poll_witness :
  fst (poll_loop PremiumIconGenerator (JStr "p1") "icon" 60 0 2 one_blip [])
    = Returns (Some ["generated_icons/icon_20250101_120000.png"])
  /\ fintech_poll_loop "trading_bull_icon" (JStr "p1") 60 one_blip []
     = (Raises ConnectionError, [Request (GetPrediction (JStr "p1"))])
  /\ while_true 3 (ai_poll_turn AiTradingIcons "neon_green" (JStr "p1")) one_blip []
     = (Raises ConnectionError, [Request (GetPrediction (JStr "p1"))])
  /\ while_true 3 (ai_poll_turn AiTradingIcons "neon_green" (JStr "p1"))
       (unauthorized "invalid token") []
     = (Returns None,
        [Request (GetPrediction (JStr "p1")); Print (MsgErrorCheckingStatus 401)]).
Proof.
  destruct transport_error_during_poll as (Retry & Fintech & Ai & Not200).
  split; [|split; [|split]].
  - rewrite (Retry PremiumIconGenerator (JStr "p1") "icon" 60 0 1 one_blip [] eq_refl).
    reflexivity.
  - apply (Fintech "trading_bull_icon" (JStr "p1") 59 one_blip []). reflexivity.
  - apply (Ai AiTradingIcons "neon_green" (JStr "p1") 2 one_blip []). reflexivity.
  - apply (Not200 AiTradingIcons "neon_green" (JStr "p1") 2 (unauthorized "invalid token") []
             (mkResponse 401 "Unauthorized" "invalid token" JNull));
      [reflexivity | discriminate].
Defined.

(** ** C5: errors stay inside their pipeline *)



(** ** C6: what a batch reports *)

(** C6, as stated, fails: when every request of the batch of
    [create_fintech_mobile_icon.py] is refused, five requests were submitted
    and the list of results is empty: it records no outcome for any of
    them. *)
Lemma failed_requests_leave_no_outcome :
  let run := fintech_main always_down [] in
  fst run = Returns []
  /\ submissions (snd run) = 5
  /\ List.length concepts = 5.
Proof. vm_compute. repeat split. Qed.

(** C6 (amended).  A batch reports the flat list of the files it has
    saved, in the order of the requests: [main] of the one-shot scripts and
    [generate_multiple_variations] return exactly the files written during
    the run.  A request that fails adds nothing to the list, so in the
    one-shot scripts the list has at most one entry per request; what
    happened to a failed request is only printed. *)
Theorem batch_reports_saved_files :
  (forall w h,
      exists results d,
        fintech_main w h = (Returns results, d)
        /\ results = written_files d
        /\ List.length results <= List.length concepts)
  /\ (forall s fuel w h icons d,
         ai_main s fuel w h = (Returns icons, d) ->
         icons = written_files d
         /\ List.length icons <= List.length (script_concepts s))
  /\ (forall w h icons d,
         generate_multiple_variations w h = (Returns icons, d) ->
         icons = written_files d).
Proof.
  split; [|split].
  - intros w h.
    destruct (fintech_main_spec w h) as (results & d & E & _ & W & L).
    exists results, d. auto.
  - intros s fuel w h icons d E.
    destruct (ai_main_spec s fuel w h) as (o & d' & E' & _ & R).
    rewrite E' in E. injection E as -> ->.
    destruct (R icons eq_refl) as (_ & W & L). auto.
  - intros w h icons d E.
    destruct (generate_multiple_variations_spec w h) as (o & d' & E' & _ & R & _).
    rewrite E' in E. injection E as -> ->. now apply (R icons).
Qed.

Lemma batch_reports_saved_files_witness :
  (exists results d,
      fintech_main always_down [] = (Returns results, d)
      /\ results = written_files d
      /\ List.length results <= List.length concepts)
  /\ ["ai_trading_icons/green_blue_glow_20250101_120000.png";
      "ai_trading_icons/cyan_teal_variant_20250101_120000.png";
      "ai_trading_icons/electric_blue_20250101_120000.png";
      "ai_trading_icons/neon_green_20250101_120000.png";
      "ai_trading_icons/purple_blue_20250101_120000.png"]
     = written_files (snd (ai_main AiTradingIcons 1 always_succeeds []))
  /\ [] = written_files (snd (generate_multiple_variations always_down [])).
Proof.
  destruct batch_reports_saved_files as (Fintech & Ai & Class).
  split; [|split].
  - apply Fintech.
  - refine (proj1 (Ai AiTradingIcons 1 always_succeeds [] _ _ _)).
    vm_compute. reflexivity.
  - apply (Class always_down [] []). vm_compute. reflexivity.
Defined.

(** ** C7: fetching the outputs of a job *)



(** ** C8: a status the poller does not know *)



(** The fintech script treats every status other than [succeeded] and
    [failed] alike, known or not: it sleeps 2 seconds and polls again,
    without a message. *)
Lemma fintech_unknown_status_keeps_polling concept_name prediction_id remaining w h r status :
  network w h (GetPrediction prediction_id) = Responded r ->
  getitem_key (json_body r) "status" = Ok status ->
  is_terminal status = false ->
  let d := [Request (GetPrediction prediction_id); Sleep 2] in
  let rest := fintech_poll_loop concept_name prediction_id remaining w (h ++ d) in
  fintech_poll_loop concept_name prediction_id (S remaining) w h
  = (fst rest, d ++ snd rest).
Proof.
  intros N St T d rest. subst d rest.
  rewrite fintech_poll_loop_unfold.
  now rewrite (fintech_poll_turn_running concept_name prediction_id w h r status N St T).
Qed.

(** ** C9: prompt lookup *)

(** The prompt tables of the trading assets generator fall back to their
    first entry for every key they do not hold. *)
Lemma trading_payloads_total :
  (forall style color_scheme, exists p, trading_button_payload style color_scheme = Ok p)
  /\ (forall icon_type style, exists p, trading_icon_payload icon_type style = Ok p)
  /\ (forall mood complexity, exists p, trading_background_payload mood complexity = Ok p).
Proof.
  split; [|split]; intros a b; eexists; reflexivity.
Qed.

Lemma analytics_selected_prompts_length style default :
  List.length default = 3 ->
  (forall l, In l (map snd analytics_prompts) -> List.length l = 3) ->
  List.length (dict_get_default analytics_prompts style default) = 3.
Proof.
  intros D A. unfold dict_get_default.
  destruct (assoc style analytics_prompts) as [l|] eqn:E; [|exact D].
  apply A. clear - E.
  induction analytics_prompts as [|[k v] rest IH]; simpl in *; [discriminate|].
  destruct (String.eqb style k); [injection E as ->; auto | auto].
Qed.

(** For every style the lookup of [generate_ai_analytics_icon] succeeds
    exactly for the variation numbers above -3. *)
Lemma analytics_prompt_defined style variation :
  (exists p, analytics_prompt style variation = Ok p) <-> (-3 < variation)%Z.
Proof.
  unfold analytics_prompt.
  change (dict_getitem analytics_prompts "modern")
    with (Ok (nth 0 (map snd analytics_prompts) [])).
  cbv beta iota zeta.
  set (default := nth 0 (map snd analytics_prompts) []).
  assert (List.length (dict_get_default analytics_prompts style default) = 3) as L.
  { apply analytics_selected_prompts_length; [reflexivity|].
    intros l [<-|[<-|[<-|[]]]]; reflexivity. }
  destruct (dict_get_default analytics_prompts style default) as [|a [|b [|c [|x l]]]];
    try discriminate.
  clear L. cbn [List.length Z.of_nat Pos.of_succ_nat Pos.succ].
  unfold list_getitem. cbn [List.length Z.of_nat Pos.of_succ_nat Pos.succ].
  destruct (variation <=? 3)%Z eqn:V.
  - apply Z.leb_le in V.
    destruct (variation - 1 <? 0)%Z eqn:Neg.
    + apply Z.ltb_lt in Neg.
      destruct (Z.eq_dec variation 0) as [->|N0]; [split; [lia | eexists; reflexivity]|].
      destruct (Z.eq_dec variation (-1)) as [->|N1]; [split; [lia | eexists; reflexivity]|].
      destruct (Z.eq_dec variation (-2)) as [->|N2]; [split; [lia | eexists; reflexivity]|].
      assert ((0 <=? variation - 1 + 3)%Z = false) as -> by (apply Z.leb_gt; lia).
      simpl. split; [intros [p ?]; discriminate | lia].
    + apply Z.ltb_ge in Neg.
      destruct (Z.eq_dec variation 1) as [->|N1]; [split; [lia | eexists; reflexivity]|].
      destruct (Z.eq_dec variation 2) as [->|N2]; [split; [lia | eexists; reflexivity]|].
      destruct (Z.eq_dec variation 3) as [->|N3]; [split; [lia | eexists; reflexivity]|].
      lia.
  - apply Z.leb_gt in V. simpl. split; [lia | eexists; reflexivity].
Qed.

(** C9 fails on the code: [generate_ai_analytics_icon("modern", -3)] raises
    [IndexError] while it builds its payload, before any request is sent. *)
Theorem analytics_variation_below_range :
  analytics_prompt "modern" (-3) = Err IndexError
  /\ forall w h,
       generate_ai_analytics_icon "modern" (-3) w h = (Raises IndexError, []).
Proof. split; [reflexivity | intros w h; reflexivity]. Qed.

(** For variation 0 the lookup does not fall back to the first prompt of
    the style either: it takes the last one. *)
Lemma analytics_variation_zero :
  analytics_prompt "modern" 0 = list_getitem
                                  (dict_get_default analytics_prompts "modern" []) 2.
Proof. reflexivity. Qed.

(** ** C10: succeeded without output *)

(** C10.  When a status query is answered with [succeeded] and the
    [output] is missing, [null] or empty, [_poll_prediction] prints that no
    output was found and returns [None] at once: nothing is downloaded and
    no further attempt is made. *)
Theorem succeeded_without_output_returns_none
    self prediction_id filename_prefix max_attempts attempt remaining w h r status output :
  network w h (GetPrediction prediction_id) = Responded r ->
  is_http_error (status_code r) = false ->
  dict_get (json_body r) "status" JNull = Ok status ->
  eq_str status "succeeded" = true ->
  dict_get (json_body r) "output" (JArr []) = Ok output ->
  truthy output = false ->
  let run := poll_loop self prediction_id filename_prefix max_attempts attempt
               (S remaining) w h in
  run = (Returns None,
         [Request (GetPrediction prediction_id); Print (MsgNoOutputUrls filename_prefix)])
  /\ downloads (snd run) = 0
  /\ written_files (snd run) = [].
Proof.
  intros N C St Su O T run. subst run.
  rewrite poll_loop_unfold.
  rewrite (poll_attempt_no_output self prediction_id filename_prefix max_attempts attempt
             w h r status output N C St Su O T).
  repeat split.
Qed.

Lemma succeeded_without_output_returns_none_witness :
  _poll_prediction StunningIconGenerator (JStr "p1") "bull_crystal" 60
    succeeded_without_output []
  = (Returns None,
     [Request (GetPrediction (JStr "p1")); Print (MsgNoOutputUrls "bull_crystal")])
  /\ fst (_poll_prediction StunningIconGenerator (JStr "p1") "bull_crystal" 60
            (scripted [] (status_reply "succeeded") (image_reply "PNG")) [])
     = Returns None.
Proof.
  split.
  - apply (succeeded_without_output_returns_none StunningIconGenerator (JStr "p1")
             "bull_crystal" 60 0 59 succeeded_without_output []
             (mkResponse 200 "OK" ""
                (JObj [("status", JStr "succeeded"); ("output", JArr [])]))
             (JStr "succeeded") (JArr [])); reflexivity.
  - refine (f_equal fst
              (proj1 (succeeded_without_output_returns_none StunningIconGenerator (JStr "p1")
                        "bull_crystal" 60 0 59
                        (scripted [] (status_reply "succeeded") (image_reply "PNG")) []
                        (mkResponse 200 "OK" "" (JObj [("status", JStr "succeeded")]))
                        (JStr "succeeded") (JArr [])
                        eq_refl eq_refl eq_refl eq_refl eq_refl eq_refl))).
Defined.
